(** * The Cardano assistant's conversation loop

    A shallow embedding of [workflow/agents/cardano_agent.py]: the agent
    state, the two graph nodes ([call_model], the tool node), the routing
    function [should_continue], the compiled graph with its in-memory
    checkpointer, new-thread detection, [chat] and its callers; and of the
    test script [test_agents.py] with the configuration module it reads.

    The agent is built on an orchestration framework whose sources are not
    part of the repository.  Its behaviour is modelled as far as the program
    relies on it:
    - the model client is a function of the transcript it is sent; it
      answers with an assistant message or raises;
    - the [add_messages] reducer of the [messages] channel: every message
      handed to it here is new (it carries a fresh identifier), so the
      reducer appends;
    - the checkpointer: a dictionary from thread key to the saved channel
      values, written once the input has been applied and after every
      completed step.  A run of the graph files its checkpoints under the
      thread identifier of its configuration, which the run loop replaces
      by its [str] when it is truthy and not a string; [get_state] looks
      the identifier up as it is given.  Keys are compared as Python
      compares them, so the integer 0 and the string "0" differ;
    - the prebuilt tool node: it answers the calls of the latest assistant
      message with one tool message per call, in order, each carrying the
      identifier of its call; a failure the node handles becomes the text
      of the tool message, any other exception of a tool ends the step;
    - the execution of the graph as declared by [_build_graph].  The
      program sets no bound on the number of steps, so the framework's
      default recursion limit of 25 applies: a run that has not ended
      after 25 steps is stopped after one more step, with
      [GraphRecursionError]. *)

From stdpp Require Import base option list strings pretty gmap fin_maps.
From Stdlib Require Import ZArith Lia.

(** ** Python values used as dictionary keys, exceptions *)

Module Py.

(** The values a thread identifier can take at run time.  [chat] is
    annotated [thread_id: int]; [str(thread_id)] is a string. *)
Inductive PyVal : Type :=
| PyInt (z : Z)
| PyStr (s : string).

#[global] Instance PyVal_eq_dec : EqDecision PyVal.
Proof. solve_decision. Defined.

#[global] Instance PyVal_countable : Countable PyVal.
Proof.
  refine (inj_countable'
            (fun v => match v with PyInt z => inl z | PyStr s => inr s end)
            (fun x => match x with inl z => PyInt z | inr s => PyStr s end) _).
  intros []; reflexivity.
Defined.

(** [str(v)]: decimal rendering of an integer, identity on a string. *)
Definition py_str (v : PyVal) : string :=
  match v with
  | PyInt z => pretty z
  | PyStr s => s
  end.

(** An exception instance: its class and [str(e)]. *)
Record PyException : Type := mkExc { exc_class : string; exc_str : string }.

Definition IndexError : PyException :=
  mkExc "IndexError" "list index out of range".

Definition ValueError (msg : string) : PyException := mkExc "ValueError" msg.

(** Computations that return or raise. *)
Inductive Exc (A : Type) : Type :=
| Return (a : A)
| Raise (e : PyException).
Arguments Return {A} a.
Arguments Raise {A} e.

#[global] Instance Exc_ret : MRet Exc := fun A a => Return a.
#[global] Instance Exc_bind : MBind Exc := fun A B f m =>
  match m with
  | Return a => f a
  | Raise e => Raise e
  end.

(** [l[-1]] *)
Definition py_last {A : Type} (l : list A) : Exc A :=
  match last l with
  | Some x => Return x
  | None => Raise IndexError
  end.

End Py.
Import Py.

(** ** Messages and the agent state *)

Record ToolCall : Type := mkToolCall {
  tc_name : string;
  tc_args : string;
  tc_id : string
}.

#[global] Instance ToolCall_eq_dec : EqDecision ToolCall.
Proof. solve_decision. Defined.

Inductive Message : Type :=
| SystemMessage (content : string)
| HumanMessage (content : string)
| AIMessage (content : string) (tool_calls : list ToolCall)
| ToolMessage (content : string) (name : string) (tool_call_id : string).

(** [m.content]: every message class has the attribute. *)
Definition content (m : Message) : string :=
  match m with
  | SystemMessage c | HumanMessage c | AIMessage c _ | ToolMessage c _ _ => c
  end.

(** [getattr(m, 'tool_calls')]: only assistant messages have the attribute. *)
Definition getattr_tool_calls (m : Message) : option (list ToolCall) :=
  match m with
  | AIMessage _ calls => Some calls
  | _ => None
  end.

(** [getattr(m, 'tool_call_id')]: only tool messages have the attribute. *)
Definition getattr_tool_call_id (m : Message) : option string :=
  match m with
  | ToolMessage _ _ id => Some id
  | _ => None
  end.

Definition is_system (m : Message) : bool :=
  match m with SystemMessage _ => true | _ => false end.

Definition is_human (m : Message) : bool :=
  match m with HumanMessage _ => true | _ => false end.

(** What the last lines of [chat] may be handed: a message, or any other
    object, which has no [content] attribute and is known by its [str]. *)
Inductive PyObject : Type :=
| Msg (m : Message)
| Opaque (repr : string).

(** [getattr(o, 'content')], [None] when [hasattr(o, 'content')] is false. *)
Definition getattr_content (o : PyObject) : option string :=
  match o with
  | Msg m => Some (content m)
  | Opaque _ => None
  end.

(** [class AgentState(TypedDict)] *)
Record AgentState : Type := mkState {
  messages : list Message;
  user_query : string;
  context : string;
  response : string
}.

(** A node's return value (and the input of [invoke]): a dictionary that
    holds some of the keys of [AgentState]. *)
Record StateUpdate : Type := mkUpdate {
  upd_messages : option (list Message);
  upd_user_query : option string;
  upd_context : option string;
  upd_response : option string
}.

(** [{"messages": ms}] *)
Definition only_messages (ms : list Message) : StateUpdate :=
  mkUpdate (Some ms) None None None.

(** The reducer of the [messages] channel. *)
Definition add_messages (left right : list Message) : list Message :=
  left ++ right.

(** Channels before any write. *)
Definition empty_channels : AgentState := mkState [] "" "" "".

(** Writing an update to the channels: [messages] goes through its reducer,
    the other keys are overwritten when present. *)
Definition apply_update (s : AgentState) (u : StateUpdate) : AgentState :=
  {| messages := match upd_messages u with
                 | Some ms => add_messages (messages s) ms
                 | None => messages s
                 end;
     user_query := default (user_query s) (upd_user_query u);
     context := default (context s) (upd_context u);
     response := default (response s) (upd_response u) |}.

(** The answer of the model client: an assistant message. *)
Record AIReply : Type := mkReply {
  reply_content : string;
  reply_tool_calls : list ToolCall
}.

Definition reply_message (r : AIReply) : Message :=
  AIMessage (reply_content r) (reply_tool_calls r).

(** [self.system_prompt] *)
Definition system_prompt : string :=
  "
        You are a helpful Cardano blockchain assistant. You can help users with:

        1. **Blockchain Queries**: Retrieve and explain transaction data, address information, and analyze transaction flows using Blockfrost API
        2. **Knowledge Base**: Answer questions about Cardano concepts, protocols, and general blockchain information

        **Guidelines:**
        - For transaction hashes, addresses, or specific blockchain data requests, use the appropriate Blockfrost tools
        - For general questions about Cardano, staking, smart contracts, etc., use the knowledge base tools
        - Always provide clear, detailed explanations
        - If you need to use tools, explain what you're doing
        - Present data in a user-friendly format
        - If a transaction address seems invalid, guide the user on the correct format

        **Tool Usage:**
        - Only use tools when necessary
        ".

(** The checkpointer's storage: thread key to saved channel values.  A key
    that is absent has no checkpoint, and [get_state] shows [{}] for it. *)
Abbreviation Store := (gmap PyVal AgentState).

(** Nodes of the graph, and the values of [Literal["tools", "end"]]. *)
Inductive Node : Type := agent | tools.

Inductive Route : Type := route_tools | route_end.

#[global] Instance Node_eq_dec : EqDecision Node.
Proof. solve_decision. Defined.

#[global] Instance Message_eq_dec : EqDecision Message.
Proof. solve_decision. Defined.

#[global] Instance AgentState_eq_dec : EqDecision AgentState.
Proof. solve_decision. Defined.

(** The result of running the graph: the checkpointer's storage afterwards,
    the nodes that were executed, each with the transcript it was handed (a
    ghost record of the run), and the value returned or the exception. *)
Record Outcome : Type := mkOutcome {
  out_store : Store;
  out_trace : list (Node * list Message);
  out_result : Exc AgentState
}.

Definition log_step (n : Node) (ms : list Message) (o : Outcome) : Outcome :=
  mkOutcome (out_store o) ((n, ms) :: out_trace o) (out_result o).

(** What [chat] hands back, with the storage and the record of the run. *)
Record ChatResult : Type := mkChat {
  chat_store : Store;
  chat_trace : list (Node * list Message);
  chat_text : string
}.

(** The framework's default bound on the steps of one run of a graph;
    [chat] passes no [recursion_limit] of its own. *)
Definition DEFAULT_RECURSION_LIMIT : nat := 25.

(** The key a run of the graph files its checkpoints under: the run loop
    replaces a thread identifier that is truthy and not a string by its
    [str]. *)
Definition checkpoint_key (thread_id : PyVal) : PyVal :=
  match thread_id with
  | PyInt z => if decide (z = 0%Z) then PyInt z else PyStr (py_str (PyInt z))
  | PyStr s => PyStr s
  end.

(** ** The agent *)

Section Agent.

(** [self.llm_with_tools.invoke]: the model client with the tools bound.
    It answers with an assistant message or raises. *)
Variable llm : list Message -> Exc AIReply.

(** A tool run on one requested call: the text of the tool message the
    tool node builds (the tool's result, or the text the node makes of a
    failure it handles), or the exception the node lets through. *)
Variable invoke_tool : ToolCall -> Exc string.

(** [str(e)] of the [GraphRecursionError] that stops a run at the
    recursion limit; its wording is the framework's. *)
Variable recursion_limit_message : string.

(** [str(m)] for a message. *)
Variable message_repr : Message -> string.

(** *** [_build_graph] *)

Definition should_continue (state : AgentState) : Exc Route :=
  last_message ← py_last (messages state);
  mret (match getattr_tool_calls last_message with
        | Some (_ :: _) => route_tools
        | _ => route_end
        end).

Definition call_model (state : AgentState) : Exc StateUpdate :=
  response ← llm (messages state);
  mret (only_messages [reply_message response]).

(** [self.tool_node = ToolNode(self.tools)] *)
Definition tool_message (c : ToolCall) : Exc Message :=
  result ← invoke_tool c;
  mret (ToolMessage result (tc_name c) (tc_id c)).

Fixpoint tool_messages (calls : list ToolCall) : Exc (list Message) :=
  match calls with
  | [] => mret []
  | c :: rest =>
      m ← tool_message c;
      ms ← tool_messages rest;
      mret (m :: ms)
  end.

Definition is_ai (m : Message) : bool :=
  match m with AIMessage _ _ => true | _ => false end.

Definition tool_node (state : AgentState) : Exc StateUpdate :=
  match messages state with
  | [] => Raise (ValueError "No message found in input")
  | _ :: _ =>
      match List.find is_ai (rev (messages state)) with
      | Some (AIMessage _ calls) =>
          results ← tool_messages calls;
          mret (only_messages results)
      | _ => Raise (ValueError "No AIMessage found in input")
      end
  end.

(** [call_tools] is defined by [_build_graph] but never registered: the
    node named "tools" is [self.tool_node] itself. *)
Definition call_tools (state : AgentState) : Exc StateUpdate :=
  last_message ← py_last (messages state);
  tool_results ← tool_node (mkState [last_message] "" "" "");
  mret (only_messages
          (messages state ++ default [] (upd_messages tool_results))).

(** [workflow.add_node("agent", call_model)],
    [workflow.add_node("tools", self.tool_node)] *)
Definition node_fn (n : Node) : AgentState -> Exc StateUpdate :=
  match n with
  | agent => call_model
  | tools => tool_node
  end.

(** The edges: [START -> agent] (see [invoke]), the conditional edges of
    "agent" with the mapping [{"tools": "tools", "end": END}], and
    [tools -> agent].  [None] is [END]. *)
Definition next_node (n : Node) (state : AgentState) : Exc (option Node) :=
  match n with
  | agent =>
      r ← should_continue state;
      mret (match r with
            | route_tools => Some tools
            | route_end => None
            end)
  | tools => mret (Some agent)
  end.

(** One step: run the node, write its update to the channels, and follow
    the outgoing edge, which reads the channels after the write. *)
Definition run_node (n : Node) (state : AgentState)
  : Exc (AgentState * option Node) :=
  u ← node_fn n state;
  let state' := apply_update state u in
  nx ← next_node n state';
  mret (state', nx).

Definition GraphRecursionError : PyException :=
  mkExc "GraphRecursionError" recursion_limit_message.

(** The loop of the compiled graph on the thread stored under [key], with
    [steps_left] steps allowed after this one.  A step that raises leaves
    the storage as the previous step saved it.  A step that completes is
    saved; the loop then stops with [GraphRecursionError] when no step is
    left, before it looks whether the graph has ended. *)
Fixpoint pregel_loop (steps_left : nat) (key : PyVal) (store : Store)
         (n : Node) (state : AgentState) : Outcome :=
  match run_node n state with
  | Raise e => mkOutcome store [(n, messages state)] (Raise e)
  | Return (state', nx) =>
      let store' := <[key := state']> store in
      match steps_left with
      | 0 => mkOutcome store' [(n, messages state)] (Raise GraphRecursionError)
      | S steps_left' =>
          match nx with
          | None => mkOutcome store' [(n, messages state)] (Return state')
          | Some n' =>
              log_step n (messages state)
                (pregel_loop steps_left' key store' n' state')
          end
      end
  end.

(** [graph.invoke(input, {"configurable": {"thread_id": thread_id}})]: the
    input is written on top of the thread's saved channels, saved, and the
    graph is entered at "agent". *)
Definition invoke (store : Store) (input : StateUpdate)
           (thread_id : PyVal) : Outcome :=
  let key := checkpoint_key thread_id in
  let state0 := apply_update (default empty_channels (store !! key)) input in
  pregel_loop DEFAULT_RECURSION_LIMIT key (<[key := state0]> store)
              agent state0.

(** [graph.get_state(config).values] for the thread identifier of
    [config], [None] standing for [{}]. *)
Definition get_state_values (store : Store) (key : PyVal)
  : option AgentState :=
  store !! key.

(** *** [CardanoAgent.is_new_thread] *)
Definition is_new_thread (store : Store) (thread_id : PyVal) : bool :=
  let key := PyStr (py_str thread_id) in
  match get_state_values store key with
  | None => true
  | Some _ => false
  end.

(** *** [chat] *)

(** [str(o)] *)
Definition py_str_object (o : PyObject) : string :=
  match o with
  | Msg m => message_repr m
  | Opaque repr => repr
  end.

(** Lines 123-127: the text of the final message. *)
Definition final_text (final_message : PyObject) : string :=
  match getattr_content final_message with
  | Some c => c
  | None => py_str_object final_message
  end.

Definition initial_messages (is_new : bool) (user_input : string)
  : list Message :=
  (if is_new then [SystemMessage system_prompt] else [])
    ++ [HumanMessage user_input].

Definition initial_state (is_new : bool) (user_input : string)
  : StateUpdate :=
  {| upd_messages := Some (initial_messages is_new user_input);
     upd_user_query := Some user_input;
     upd_context := Some "";
     upd_response := Some "" |}.

(** The body of the [try] block: the storage and the record of the run it
    leaves, and the text it returns or the exception it raises.  The line
    printed for a new thread is left to the callers that model standard
    output. *)
Definition chat_try (store : Store) (thread_id : PyVal)
           (user_input : string)
  : Store * list (Node * list Message) * Exc string :=
  let is_new := is_new_thread store thread_id in
  let o := invoke store (initial_state is_new user_input) thread_id in
  (out_store o, out_trace o,
   result ← out_result o;
   final_message ← py_last (messages result);
   mret (final_text (Msg final_message))).

(** The [except Exception] clause. *)
Definition error_reply (e : PyException) : string :=
  "I encountered an error while processing your request: " +:+ exc_str e.

Definition chat (store : Store) (thread_id : PyVal) (user_input : string)
  : ChatResult :=
  let tried := chat_try store thread_id user_input in
  mkChat tried.1.1 tried.1.2
         match tried.2 with
         | Return text => text
         | Raise e => error_reply e
         end.

(** [CardanoChatbot(thread_id).chat] and [kickoff_cardanoAgent]: the
    declared type of the thread identifier is [int]. *)
Definition kickoff_cardanoAgent (store : Store) (thread_id : Z)
           (user_input : string) : ChatResult :=
  chat store (PyInt thread_id) user_input.

(** Successive requests on one thread. *)
Fixpoint chat_all (store : Store) (thread_id : PyVal)
         (inputs : list string) : Store * list string :=
  match inputs with
  | [] => (store, [])
  | u :: rest =>
      let r := chat store thread_id u in
      let later := chat_all (chat_store r) thread_id rest in
      (later.1, chat_text r :: later.2)
  end.

(** The transcript stored for a thread. *)
Definition transcript (store : Store) (thread_id : PyVal) : list Message :=
  default [] (messages <$> store !! checkpoint_key thread_id).

(** *** Specification vocabulary *)

(** The channels with [ms] appended to the transcript. *)
Definition append_messages (s : AgentState) (ms : list Message)
  : AgentState :=
  mkState (messages s ++ ms) (user_query s) (context s) (response s).

(** Messages the loop itself produces. *)
Definition is_generated (m : Message) : bool :=
  match m with
  | AIMessage _ _ | ToolMessage _ _ _ => true
  | _ => false
  end.

(** How the exchange with the model client and the tools ends: the model
    client answers in plain text, the model client raises, or a tool
    raises. *)
Inductive Ending : Type :=
| Answered (r : AIReply)
| Failed (e : PyException)
| ToolFailed (e : PyException).

(** Started on transcript [ms], the model client asks for tools in [k]
    consecutive replies, each time the tools return, and then the
    exchange ends: with a reply that carries no tool call, with an
    exception of the model client, or with a reply whose tools raise. *)
Fixpoint ends_after (k : nat) (ms : list Message) (w : Ending) : Prop :=
  match k with
  | 0 =>
      match w with
      | Answered r => llm ms = Return r /\ reply_tool_calls r = []
      | Failed e => llm ms = Raise e
      | ToolFailed e =>
          exists r,
            llm ms = Return r /\ tool_messages (reply_tool_calls r) = Raise e
      end
  | S k' =>
      exists r' results,
        llm ms = Return r' /\ reply_tool_calls r' <> [] /\
        tool_messages (reply_tool_calls r') = Return results /\
        ends_after k' (ms ++ reply_message r' :: results) w
  end.

(** Started on transcript [ms], the model client asks for tools in [k]
    consecutive replies, and each time the tools return. *)
Fixpoint asks_for_tools (k : nat) (ms : list Message) : Prop :=
  match k with
  | 0 => True
  | S k' =>
      exists r' results,
        llm ms = Return r' /\ reply_tool_calls r' <> [] /\
        tool_messages (reply_tool_calls r') = Return results /\
        asks_for_tools k' (ms ++ reply_message r' :: results)
  end.

(** The nodes of a run with [k] tool rounds: agent, tools, agent, ... *)
Fixpoint alternation (k : nat) : list Node :=
  match k with
  | 0 => [agent]
  | S k' => agent :: tools :: alternation k'
  end.

(** The nodes of a run to an ending that comes after [k] tool rounds. *)
Definition ending_nodes (k : nat) (w : Ending) : list Node :=
  match w with
  | ToolFailed _ => alternation k ++ [tools]
  | _ => alternation k
  end.

(** Scanning a transcript with the tool calls that still await their
    result: a pending call must be answered by the very next message, a
    tool message with that call's identifier; a tool message answers
    nothing else.  [None] when the transcript breaks this. *)
Fixpoint pending_after (pending : list ToolCall) (ms : list Message)
  : option (list ToolCall) :=
  match ms with
  | [] => Some pending
  | m :: ms' =>
      match pending, m with
      | c :: cs, ToolMessage _ _ id =>
          if decide (id = tc_id c) then pending_after cs ms' else None
      | _ :: _, _ => None
      | [], ToolMessage _ _ _ => None
      | [], AIMessage _ calls => pending_after calls ms'
      | [], _ => pending_after [] ms'
      end
  end.

(** Every tool call of the transcript has its result. *)
Definition resolved (ms : list Message) : Prop :=
  pending_after [] ms = Some [].

(** The channels the graph is entered with. *)
Definition entry_state (store : Store) (thread_id : PyVal)
           (user_input : string) : AgentState :=
  mkState (transcript store thread_id
             ++ initial_messages (is_new_thread store thread_id) user_input)
          user_input "" "".

(** The text [chat] makes of the outcome of [invoke]. *)
Definition reply_text (r : Exc AgentState) : string :=
  match r with
  | Return result =>
      match py_last (messages result) with
      | Return final_message => content final_message
      | Raise e => error_reply e
      end
  | Raise e => error_reply e
  end.

(** What a node may rely on when it is entered: the agent node sees a
    transcript without pending tool call; the tools node sees one that
    ends with an assistant message whose calls are the only pending ones. *)
Definition step_ready (n : Node) (ms : list Message) : Prop :=
  match n with
  | agent => resolved ms
  | tools =>
      exists pre c calls,
        ms = pre ++ [AIMessage c calls] /\ resolved pre /\ calls <> []
  end.

(** What the graph hands back for an ending, [saved] being the channels
    saved last. *)
Definition ending_result (w : Ending) (saved : AgentState)
  : Exc AgentState :=
  match w with
  | Answered _ => Return saved
  | Failed e | ToolFailed e => Raise e
  end.

(** The text [chat] returns for an ending. *)
Definition ending_text (w : Ending) : string :=
  match w with
  | Answered r => reply_content r
  | Failed e | ToolFailed e => error_reply e
  end.

End Agent.

Arguments pregel_loop : simpl never.
Arguments invoke : simpl never.
Arguments chat_try : simpl never.
Arguments chat : simpl never.

(** ** Sessions: the callers of [chat] *)

Section Sessions.

Variable llm : list Message -> Exc AIReply.
Variable invoke_tool : ToolCall -> Exc string.
Variable recursion_limit_message : string.
Variable message_repr : Message -> string.

(** Requests made through [kickoff_cardanoAgent], one after the other, on
    whatever threads they name; each reply is kept with its thread. *)
Fixpoint kickoff_all (store : Store) (requests : list (Z * string))
  : Store * list (Z * string) :=
  match requests with
  | [] => (store, [])
  | (thread_id, user_input) :: rest =>
      let r := kickoff_cardanoAgent llm invoke_tool recursion_limit_message
                 message_repr store thread_id user_input in
      let later := kickoff_all (chat_store r) rest in
      (later.1, (thread_id, chat_text r) :: later.2)
  end.

(** What of a list of requests, or of replies, belongs to one thread. *)
Fixpoint for_thread {A : Type} (thread_id : Z) (l : list (Z * A)) : list A :=
  match l with
  | [] => []
  | (z, a) :: l' =>
      if decide (z = thread_id) then a :: for_thread thread_id l'
      else for_thread thread_id l'
  end.

(** *** The loop under [if __name__ == "__main__"] *)

(** [c.lower()] on the ASCII letters.  The lowered line is only compared
    with two ASCII words, and no character outside ASCII lowers to one of
    their letters. *)
Definition ascii_lower (c : Ascii.ascii) : Ascii.ascii :=
  let n := Ascii.nat_of_ascii c in
  if (65 <=? n)%nat && (n <=? 90)%nat then Ascii.ascii_of_nat (n + 32)
  else c.

Fixpoint py_lower (s : string) : string :=
  match s with
  | EmptyString => EmptyString
  | String c s' => String (ascii_lower c) (py_lower s')
  end.

(** [user_input.lower() in ["exit", "bye"]] *)
Definition is_quit (user_input : string) : bool :=
  bool_decide (py_lower user_input ∈ ["exit"; "bye"]).

Definition EOFError : PyException :=
  mkExc "EOFError" "EOF when reading a line".

Definition newline : string := String (Ascii.ascii_of_nat 10) EmptyString.

(** What one round of the loop writes: the prompt of [input], the line
    [chat] prints when it takes the thread for new, and the printed reply. *)
Definition prompt : string := "You: ".

Definition new_thread_notice (store : Store) (thread_id : PyVal)
  : list string :=
  if is_new_thread store thread_id then ["Starting a new thread." +:+ newline]
  else [].

Definition bot_line (response : string) : string :=
  "Bot: " +:+ response +:+ newline.

(** The loop on the lines that standard input still holds.  It hands back
    the storage, what was written to standard output, and how it ended:
    by [break], or with the [EOFError] that [input] raises when no line is
    left. *)
Fixpoint main_loop (store : Store) (stdin : list string)
  : Store * list string * Exc () :=
  match stdin with
  | [] => (store, [prompt], Raise EOFError)
  | user_input :: rest =>
      if is_quit user_input then (store, [prompt], Return ())
      else
        let r := kickoff_cardanoAgent llm invoke_tool recursion_limit_message
                   message_repr store 1%Z user_input in
        let later := main_loop (chat_store r) rest in
        (later.1.1,
         prompt :: new_thread_notice store (PyInt 1)
           ++ bot_line (chat_text r) :: later.1.2,
         later.2)
  end.

(** The lines up to the first one that ends the loop. *)
Fixpoint lines_before_quit (stdin : list string) : list string :=
  match stdin with
  | [] => []
  | user_input :: rest =>
      if is_quit user_input then [] else user_input :: lines_before_quit rest
  end.

(** The rounds of the loop for the replies it printed, none of them with
    the notice, and the prompt that follows them. *)
Definition printed_rounds (replies : list string) : list string :=
  flat_map (fun response => [prompt; bot_line response]) replies ++ [prompt].

(** The output of the loop for the replies it printed, the first round
    with [notice]. *)
Definition printed (notice replies : list string) : list string :=
  match replies with
  | [] => [prompt]
  | response :: later =>
      prompt :: notice ++ bot_line response :: printed_rounds later
  end.

End Sessions.

Arguments kickoff_cardanoAgent : simpl never.

(** ** The configuration module, [app/core/config.py] *)

Module Config.

Record Settings : Type := mkSettings {
  OPENAI_API_KEY : option string;
  BLOCKFROST_PROJECT_ID : option string;
  BLOCKFROST_BASE_URL : string;
  CHROMA_DB_PATH : string;
  MODELS : list string
}.

(** [os.getenv(name)] and [os.getenv(name, default)] *)
Definition getenv (environ : gmap string string) (name : string)
  : option string :=
  environ !! name.

Definition getenv_or (environ : gmap string string) (name fallback : string)
  : string :=
  default fallback (environ !! name).

(** The module's top level, run on the environment as [load_dotenv] leaves
    it; [preview_url] is [ApiUrls.preview.value].  [TEMPERATURE], a
    floating-point literal, is left out. *)
Definition load (environ : gmap string string) (preview_url : string)
  : Settings :=
  {| OPENAI_API_KEY := getenv environ "OPENAI_API_KEY";
     BLOCKFROST_PROJECT_ID := getenv environ "BLOCKFROST_PROJECT_ID";
     BLOCKFROST_BASE_URL := getenv_or environ "BLOCKFROST_BASE_URL" preview_url;
     CHROMA_DB_PATH := getenv_or environ "CHROMA_DB_PATH" "./chroma_data";
     MODELS := ["text-embedding-3-small"; "gpt-3.5-turbo"; "gpt-4o-mini"] |}.

End Config.

(** ** The test script, [test_agents.py]

    The script talks to a server, reads the clock, imports modules and
    writes a file.  These are modelled as far as the script relies on them:
    - a request either gets a response, of which the script reads the status
      code only, or raises a [RequestException], of which it reads the
      [str]; the server may change state with every request;
    - importing a module gives the module or raises [ImportError];
    - standard output is the list of the arguments of [print], in order;
    - [test_results.json] is known by the value dumped into it, and writing
      it succeeds. *)

Module TestAgents.

Definition API_BASE : string := "http://localhost:8000".
Definition SECRET_TOKEN : string := "unihack25".
Definition TEST_ADDRESS : string :=
  "addr_test1wryf65umuw5nuh8m4sjh9dka0mx7pwsmle0uyex8pf7f4ycj7y6tp".
Definition TEST_TX_HASH : string :=
  "4bcba01d2c775b545c783bbd49a9443bb0ac071c743c86eeddd6a814852288e5".

(** An entry of [TestTracker.results]. *)
Record TestResult : Type := mkResult {
  res_test : string;
  res_passed : bool;
  res_details : string;
  res_timestamp : string
}.

(** [class TestTracker] *)
Record TestTracker : Type := mkTracker {
  passed : nat;
  failed : nat;
  total : nat;
  results : list TestResult
}.

(** What [save_test_results] dumps into [test_results.json]. *)
Record Report : Type := mkReport {
  rep_timestamp : string;
  rep_total : nat;
  rep_passed : nat;
  rep_failed : nat;
  rep_tests : list TestResult
}.

(** The function of [requests] a request goes through. *)
Inductive Verb : Type := GET | POST | OPTIONS.

Record Request : Type := mkRequest {
  req_verb : Verb;
  req_url : string;
  req_headers : gmap string string;
  req_json : option (list (string * PyVal));
  req_timeout : nat
}.

(** Reading a local variable that no branch has assigned; the text is the
    one of CPython 3.11 and later. *)
Definition UnboundLocalError (name : string) : PyException :=
  mkExc "UnboundLocalError"
        ("cannot access local variable '" +:+ name
           +:+ "' where it is not associated with a value").

(** [s * n] *)
Fixpoint py_repeat (s : string) (n : nat) : string :=
  match n with
  | 0 => ""
  | S n' => s +:+ py_repeat s n'
  end.

Section Script.

(** The server under test: its state, and what a request gets from it, the
    [str] of a [RequestException] or the status code of the response. *)
Variable Server : Type.
Variable http : Server -> Request -> Server * (string + nat).

(** [datetime.now().isoformat()] at its n-th call. *)
Variable now : nat -> string.

(** The environment as [load_dotenv] leaves it, [ApiUrls.preview.value],
    and the [str] of the [ImportError] that importing [app.core.config]
    raises, if it does. *)
Variable environ : gmap string string.
Variable preview_url : string.
Variable config_import_error : option string.

(** [importlib.import_module]: the [str] of the [ImportError], or the
    module, known by the names it has. *)
Variable import_module : string -> string + (string -> bool).

(** What the script acts on: the global [tracker], standard output (the
    arguments of [print], in order), the number of clock readings so far,
    the server, the requests sent so far, and [test_results.json]. *)
Record World : Type := mkWorld {
  tracker : TestTracker;
  stdout : list string;
  clock : nat;
  server : Server;
  sent : list Request;
  results_file : option Report
}.

(** Actions of the script: they change the world and return or raise. *)
Definition Script (A : Type) : Type := World -> World * Exc A.

#[global] Instance Script_ret : MRet Script := fun A a w => (w, Return a).

#[global] Instance Script_bind : MBind Script := fun A B f m w =>
  match m w with
  | (w', Return a) => f a w'
  | (w', Raise e) => (w', Raise e)
  end.

Definition raise {A : Type} (e : PyException) : Script A :=
  fun w => (w, Raise e).

Definition print (line : string) : Script () :=
  fun w => (mkWorld (tracker w) (stdout w ++ [line]) (clock w) (server w)
                    (sent w) (results_file w), Return ()).

Definition datetime_now_isoformat : Script string :=
  fun w => (mkWorld (tracker w) (stdout w) (S (clock w)) (server w)
                    (sent w) (results_file w), Return (now (clock w))).

Definition read_tracker : Script TestTracker :=
  fun w => (w, Return (tracker w)).

Definition update_tracker (f : TestTracker -> TestTracker) : Script () :=
  fun w => (mkWorld (f (tracker w)) (stdout w) (clock w) (server w)
                    (sent w) (results_file w), Return ()).

Definition send (r : Request) : Script (string + nat) :=
  fun w =>
    let '(server', answer) := http (server w) r in
    (mkWorld (tracker w) (stdout w) (clock w) server' (sent w ++ [r])
             (results_file w), Return answer).

Definition write_results_file (r : Report) : Script () :=
  fun w => (mkWorld (tracker w) (stdout w) (clock w) (server w) (sent w)
                    (Some r), Return ()).

(** *** [TestTracker] *)

Definition new_tracker : TestTracker := mkTracker 0 0 0 [].

Definition add_result (test_name : string) (ok : bool) (details : string)
  : Script () :=
  update_tracker (fun t => mkTracker (passed t) (failed t) (S (total t))
                                     (results t));;
  (if ok then
     update_tracker (fun t => mkTracker (S (passed t)) (failed t) (total t)
                                        (results t));;
     print ("✓ " +:+ test_name)
   else
     update_tracker (fun t => mkTracker (passed t) (S (failed t)) (total t)
                                        (results t));;
     print ("✗ " +:+ test_name);;
     if decide (details = "") then mret ()
     else print ("  Details: " +:+ details));;
  timestamp ← datetime_now_isoformat;
  update_tracker (fun t => mkTracker (passed t) (failed t) (total t)
                    (results t
                       ++ [mkResult test_name ok details timestamp])).

Definition print_summary : Script bool :=
  t ← read_tracker;
  print (newline +:+ py_repeat "=" 50);;
  print "Test Summary";;
  print (py_repeat "=" 50);;
  print ("Total Tests: " +:+ pretty (total t));;
  print ("Passed: " +:+ pretty (passed t));;
  print ("Failed: " +:+ pretty (failed t));;
  if decide (failed t = 0) then
    print (newline +:+ "🎉 All tests passed! Your AI agent system is working correctly.");;
    mret true
  else
    print (newline +:+ "⚠️  Some tests failed. Please check the issues above.");;
    mret false.

(** *** Requests *)

Definition get_auth_headers (content_type : bool) : gmap string string :=
  let headers : gmap string string := {[ "Secret-token" := SECRET_TOKEN ]} in
  if content_type then <[ "Content-Type" := "application/json" ]> headers
  else headers.

Definition check_server : Script bool :=
  print "Checking if server is running...";;
  let headers := get_auth_headers false in
  response ← send (mkRequest GET (API_BASE +:+ "/health") headers None 5);
  match response with
  | inr status_code =>
      if decide (status_code = 200) then
        add_result "Server Health Check" true "";;
        mret true
      else
        add_result "Server Health Check" false
                   ("HTTP " +:+ pretty status_code);;
        mret false
  | inl e =>
      add_result "Server Health Check" false ("Connection error: " +:+ e);;
      print "Please start the server with: uvicorn app.main:app --reload";;
      mret false
  end.

Definition test_api_endpoint (endpoint method : string)
           (data : option (list (string * PyVal))) (expected_status : nat)
           (test_name : string) : Script bool :=
  let headers := get_auth_headers (bool_decide (method = "POST")) in
  response ←
    (if decide (method = "GET") then
       answer ← send (mkRequest GET (API_BASE +:+ endpoint) headers None 30);
       mret (Some answer)
     else if decide (method = "POST") then
       answer ← send (mkRequest POST (API_BASE +:+ endpoint) headers data 30);
       mret (Some answer)
     else mret None);
  match response with
  | None => raise (UnboundLocalError "response")
  | Some (inr status_code) =>
      if decide (status_code = expected_status) then
        add_result test_name true "";;
        mret true
      else
        add_result test_name false
                   ("Expected " +:+ pretty expected_status +:+ ", got "
                      +:+ pretty status_code);;
        mret false
  | Some (inl e) =>
      add_result test_name false ("Request error: " +:+ e);;
      mret false
  end.

(** *** The tests *)

Definition test_environment : Script () :=
  print (newline +:+ "Testing Environment Configuration...");;
  match config_import_error with
  | Some e =>
      add_result "Environment Configuration" false ("Import error: " +:+ e)
  | None =>
      let settings := Config.load environ preview_url in
      (match Config.OPENAI_API_KEY settings with
       | Some key =>
           if bool_decide (key <> "") && String.prefix "sk-" key then
             add_result "OpenAI API Key Configuration" true ""
           else
             add_result "OpenAI API Key Configuration" false
                        "Missing or invalid OpenAI API key"
       | None =>
           add_result "OpenAI API Key Configuration" false
                      "Missing or invalid OpenAI API key"
       end);;
      match Config.BLOCKFROST_PROJECT_ID settings with
      | Some (String _ _) =>
          add_result "Blockfrost Project ID Configuration" true ""
      | _ =>
          add_result "Blockfrost Project ID Configuration" false
                     "Missing Blockfrost project ID"
      end
  end.

Definition tools_to_test : list (string * list string) :=
  [("workflow.tools.blockfrost_tool",
    ["get_address_details"; "get_transactions_for_address"]);
   ("workflow.tools.legal_data_tool",
    ["search_civil_law_knowledge"; "search_corporate_law_knowledge"]);
   ("workflow.tools.knowledge_base_tool", ["search_cardano_knowledge"])].

Fixpoint check_tool_names (module_name : string) (has : string -> bool)
         (tool_names : list string) : Script () :=
  match tool_names with
  | [] => mret ()
  | tool_name :: rest =>
      (if has tool_name then
         add_result ("Import " +:+ module_name +:+ "." +:+ tool_name) true ""
       else
         add_result ("Import " +:+ module_name +:+ "." +:+ tool_name) false
                    ("Tool " +:+ tool_name +:+ " not found"));;
      check_tool_names module_name has rest
  end.

Fixpoint check_modules (modules : list (string * list string)) : Script () :=
  match modules with
  | [] => mret ()
  | (module_name, tool_names) :: rest =>
      (match import_module module_name with
       | inr has => check_tool_names module_name has tool_names
       | inl e =>
           add_result ("Import " +:+ module_name) false
                      ("Import error: " +:+ e)
       end);;
      check_modules rest
  end.

Definition test_python_tools : Script () :=
  print (newline +:+ "Testing Python Tools Import...");;
  check_modules tools_to_test.

(** One of the three probes of [test_authentication]. *)
Definition auth_probe (headers : gmap string string)
           (test_data : list (string * PyVal)) (expected_status : nat)
           (test_name : string) : Script () :=
  response ← send (mkRequest POST (API_BASE +:+ "/query/") headers
                             (Some test_data) 10);
  match response with
  | inr status_code =>
      if decide (status_code = expected_status) then
        add_result test_name true ""
      else
        add_result test_name false
                   ("Expected " +:+ pretty expected_status +:+ ", got "
                      +:+ pretty status_code)
  | inl e => add_result test_name false ("Request error: " +:+ e)
  end.

Definition test_authentication : Script () :=
  print (newline +:+ "Testing Authentication...");;
  let test_data :=
    [("thread_id", PyInt 1); ("user_input", PyStr "test");
     ("lang", PyStr "en")] in
  auth_probe ∅ test_data 401 "Authentication - No Token";;
  auth_probe (<[ "Content-Type" := "application/json" ]>
                {[ "Secret-token" := "wrongtoken" ]})
             test_data 401 "Authentication - Wrong Token";;
  auth_probe (get_auth_headers true) test_data 201
             "Authentication - Valid Token".

Definition test_cardano_agent : Script () :=
  print (newline +:+ "Testing Cardano Agent...");;
  test_api_endpoint "/query/" "POST"
    (Some [("thread_id", PyInt 1);
           ("user_input",
            PyStr ("What is the balance of " +:+ TEST_ADDRESS +:+ "?"));
           ("lang", PyStr "en")])
    201 "Cardano Agent - Address Balance Query";;
  test_api_endpoint "/query/" "POST"
    (Some [("thread_id", PyInt 2);
           ("user_input", PyStr ("Analyze transaction " +:+ TEST_TX_HASH));
           ("lang", PyStr "en")])
    201 "Cardano Agent - Transaction Analysis";;
  test_api_endpoint "/query/" "POST"
    (Some [("thread_id", PyInt 3);
           ("user_input", PyStr "How does Cardano proof-of-stake work?");
           ("lang", PyStr "en")])
    201 "Cardano Agent - Knowledge Query";;
  mret ().

Definition test_legal_agent : Script () :=
  print (newline +:+ "Testing Legal Agent...");;
  test_api_endpoint "/legalquery/" "POST"
    (Some [("thread_id", PyInt 4); ("domain", PyStr "civil_law");
           ("user_input", PyStr "What constitutes a valid contract?");
           ("lang", PyStr "en")])
    201 "Legal Agent - Civil Law Query";;
  test_api_endpoint "/legalquery/" "POST"
    (Some [("thread_id", PyInt 5); ("domain", PyStr "corporate_law");
           ("user_input",
            PyStr "What are the requirements for company registration?");
           ("lang", PyStr "en")])
    201 "Legal Agent - Corporate Law Query";;
  test_api_endpoint "/legalquery/" "POST"
    (Some [("thread_id", PyInt 6); ("domain", PyStr "property_law");
           ("user_input",
            PyStr "What are the steps for property transfer?");
           ("lang", PyStr "en")])
    201 "Legal Agent - Property Law Query";;
  mret ().

Definition test_vector_databases : Script () :=
  print (newline +:+ "Testing Vector Database Setup...");;
  test_api_endpoint "/training/setup_cardano_vector_db" "GET" None 200
                    "Cardano Vector DB Setup";;
  test_api_endpoint "/training/setup_civil_law_vector_db" "GET" None 200
                    "Civil Law Vector DB Setup";;
  test_api_endpoint "/training/setup_corporate_law_vector_db" "GET" None 200
                    "Corporate Law Vector DB Setup";;
  test_api_endpoint "/training/setup_property_law_vector_db" "GET" None 200
                    "Property Law Vector DB Setup";;
  mret ().

Definition cors_headers : gmap string string :=
  <[ "Access-Control-Request-Headers" := "Secret-token, Content-Type" ]>
    (<[ "Access-Control-Request-Method" := "POST" ]>
       (<[ "Origin" := "http://localhost:3000" ]>
          {[ "Secret-token" := SECRET_TOKEN ]})).

Definition test_cors : Script () :=
  print (newline +:+ "Testing CORS Configuration...");;
  response ← send (mkRequest OPTIONS (API_BASE +:+ "/query/") cors_headers
                             None 10);
  match response with
  | inr status_code =>
      if decide (status_code = 200) then
        add_result "CORS Configuration" true ""
      else
        add_result "CORS Configuration" false
                   ("CORS preflight failed (HTTP " +:+ pretty status_code
                      +:+ ")")
  | inl e => add_result "CORS Configuration" false ("Request error: " +:+ e)
  end.

Definition save_test_results : Script () :=
  timestamp ← datetime_now_isoformat;
  t ← read_tracker;
  write_results_file
    (mkReport timestamp (total t) (passed t) (failed t) (results t));;
  print (newline +:+ "Test results saved to test_results.json").

(** *** [main] and the command line *)

Definition main : Script bool :=
  print (py_repeat "=" 50);;
  print "AI Legal & Cardano Assistant Test Suite";;
  print (py_repeat "=" 50);;
  print "Test configuration:";;
  print ("  API Base: " +:+ API_BASE);;
  print ("  Test Address: " +:+ TEST_ADDRESS);;
  print ("  Test TX Hash: " +:+ TEST_TX_HASH);;
  print "";;
  up ← check_server;
  if negb up then
    print (newline +:+ "Cannot proceed with tests - server is not running");;
    mret false
  else
    test_environment;;
    test_python_tools;;
    test_authentication;;
    test_cors;;
    test_vector_databases;;
    test_cardano_agent;;
    test_legal_agent;;
    success ← print_summary;
    save_test_results;;
    mret success.

(** The tests a test type selects; [None] for an unknown type. *)
Definition tests_of_type (test_type : string) : option (Script ()) :=
  if decide (test_type = "cardano") then Some test_cardano_agent
  else if decide (test_type = "legal") then Some test_legal_agent
  else if decide (test_type = "auth") then Some test_authentication
  else if decide (test_type = "env") then Some test_environment
  else if decide (test_type = "tools") then Some test_python_tools
  else if decide (test_type = "db") then Some test_vector_databases
  else if decide (test_type = "quick") then
    Some (test_environment;; test_python_tools)
  else None.

(** The block under [if __name__ == "__main__"], which ends the process:
    [test_type] is [sys.argv[1].lower()] when an argument is given.  The
    value returned is the exit status; [sys.exit(1)] and falling off the
    end of the script are both returns here. *)
Definition run_script (test_type : option string) : Script nat :=
  match test_type return Script nat with
  | Some test_type =>
      up ← check_server;
      if negb up && negb (bool_decide (test_type ∈ ["env"; "tools"])) then
        print "Server not running - can only run 'env' or 'tools' tests";;
        mret 1
      else
        match tests_of_type test_type with
        | Some tests =>
            tests;;
            print_summary;;
            mret 0
        | None =>
            print ("Unknown test type: " +:+ test_type);;
            print ("Available options: "
                     +:+ "cardano, legal, auth, env, tools, db, quick");;
            mret 1
        end
  | None =>
      success ← main;
      mret (if success : bool then 0 else 1)
  end.

(** The world the script starts in. *)
Definition initial_world (s : Server) : World :=
  mkWorld new_tracker [] 0 s [] None.

End Script.

Arguments mkWorld {Server} tracker stdout clock server sent results_file.
Arguments tracker {Server} w.
Arguments stdout {Server} w.
Arguments clock {Server} w.
Arguments server {Server} w.
Arguments sent {Server} w.
Arguments results_file {Server} w.

(** The counters of a tracker agree with its list of results. *)
Definition tracker_ok (t : TestTracker) : Prop :=
  total t = passed t + failed t
  /\ total t = length (results t)
  /\ passed t = length (List.filter res_passed (results t)).

(** From [w] to [w'] the script has recorded [n] results, counting each as
    passed or failed, has sent [k] requests, and has not touched the
    results file. *)
Definition advances {Server : Type} (n k : nat) (w w' : World Server)
  : Prop :=
  (exists rs,
      length rs = n
      /\ results (tracker w') = results (tracker w) ++ rs
      /\ passed (tracker w')
         = passed (tracker w) + length (List.filter res_passed rs)
      /\ failed (tracker w')
         = failed (tracker w) + (n - length (List.filter res_passed rs))
      /\ total (tracker w') = total (tracker w) + n)
  /\ (exists qs, length qs = k /\ sent w' = sent w ++ qs)
  /\ results_file w' = results_file w.

(** An action that never raises and advances the world by [n] results and
    [k] requests. *)
Definition runs {Server A : Type} (n k : nat) (m : Script Server A) : Prop :=
  forall w, exists a w', m w = (w', Return a) /\ advances n k w w'.

(** The request of [check_server]. *)
Definition health_request : Request :=
  mkRequest GET (API_BASE +:+ "/health") (get_auth_headers false) None 5.

(** The server answers the health check with status 200. *)
Definition server_up {Server : Type}
           (http : Server -> Request -> Server * (string + nat))
           (w : World Server) : bool :=
  bool_decide ((http (server w) health_request).2 = inr 200).

(** The number of results [test_environment] and [test_python_tools]
    record. *)
Definition environment_results (config_import_error : option string) : nat :=
  match config_import_error with
  | Some _ => 1
  | None => 2
  end.

Fixpoint module_results (import_module : string -> string + (string -> bool))
         (modules : list (string * list string)) : nat :=
  match modules with
  | [] => 0
  | (module_name, tool_names) :: rest =>
      match import_module module_name with
      | inl _ => 1
      | inr _ => length tool_names
      end + module_results import_module rest
  end.

(** The test types the command line knows. *)
Definition known_test_types : list string :=
  ["cardano"; "legal"; "auth"; "env"; "tools"; "db"; "quick"].

(** The three requests of [test_authentication]. *)
Definition auth_test_data : list (string * PyVal) :=
  [("thread_id", PyInt 1); ("user_input", PyStr "test"); ("lang", PyStr "en")].

Definition no_token_request : Request :=
  mkRequest POST (API_BASE +:+ "/query/") ∅ (Some auth_test_data) 10.

Definition wrong_token_request : Request :=
  mkRequest POST (API_BASE +:+ "/query/")
            (<[ "Content-Type" := "application/json" ]>
               {[ "Secret-token" := "wrongtoken" ]})
            (Some auth_test_data) 10.

Definition valid_token_request : Request :=
  mkRequest POST (API_BASE +:+ "/query/") (get_auth_headers true)
            (Some auth_test_data) 10.

(** The name and the verdict of a result. *)
Definition verdict_of (r : TestResult) : string * bool :=
  (res_test r, res_passed r).

(** The number of results a full run of [main] records: the health check,
    the environment and import tests, and the fourteen requests of the
    other tests. *)
Definition full_run_results (config_import_error : option string)
           (import_module : string -> string + (string -> bool)) : nat :=
  1 + (environment_results config_import_error
       + (module_results import_module tools_to_test + 14)).

End TestAgents.
(** ** A scripted scenario

    A model client that asks for the address lookup when the transcript ends
    with a user message, answers once it sees a tool result, and fails
    otherwise; used to run the definitions on concrete inputs. *)

Module Scenario.

Definition address_call : ToolCall :=
  mkToolCall "get_address_details" "addr_test1wryf65" "call_1".

Definition scripted_llm (ms : list Message) : Exc AIReply :=
  match last ms with
  | Some (HumanMessage _) => Return (mkReply "" [address_call])
  | Some (ToolMessage c _ _) => Return (mkReply ("Balance: " +:+ c) [])
  | _ => Raise (mkExc "APIConnectionError" "Connection error.")
  end.

(** A model client that is down. *)
Definition failing_llm (ms : list Message) : Exc AIReply :=
  Raise (mkExc "APIConnectionError" "Connection error.").

Definition is_tool_result (m : Message) : bool :=
  match m with ToolMessage _ _ _ => true | _ => false end.

(** A model client that asks for the lookup again until it has seen
    [rounds] results, and then answers. *)
Definition eager_llm (rounds : nat) (ms : list Message) : Exc AIReply :=
  if length (List.filter is_tool_result ms) <? rounds
  then Return (mkReply "" [address_call])
  else Return (mkReply "done" []).

Definition lookup_tool (c : ToolCall) : Exc string := Return "1000 lovelace".

(** A tool whose service is down. *)
Definition service_down : PyException :=
  mkExc "ApiError" "Blockfrost is unreachable".

Definition broken_tool (c : ToolCall) : Exc string := Raise service_down.

Definition out_of_steps : string :=
  "Recursion limit of 25 reached without hitting a stop condition.".

Definition show_message (m : Message) : string := content m.

Definition question : string := "What is the balance of addr_test1wryf65?".

Definition follow_up : string := "And its transactions?".

(** The answer of the scripted model client once the tool has run. *)
Definition balance_reply : AIReply :=
  mkReply "Balance: 1000 lovelace" [].

Definition ask (store : Store) (thread_id : PyVal) (user_input : string)
  : ChatResult :=
  chat scripted_llm lookup_tool out_of_steps show_message store thread_id
       user_input.

(** A first request on thread 7, then one on thread 8, or a second one on
    thread 7. *)
Definition first_on_7 : ChatResult := ask ∅ (PyInt 7) question.

Definition then_on_8 : ChatResult :=
  ask (chat_store first_on_7) (PyInt 8) question.

Definition again_on_7 : ChatResult :=
  ask (chat_store first_on_7) (PyInt 7) follow_up.

(** Two requests on thread 0, the default of [CardanoChatbot]. *)
Definition first_on_0 : ChatResult := ask ∅ (PyInt 0) question.

Definition again_on_0 : ChatResult :=
  ask (chat_store first_on_0) (PyInt 0) follow_up.

(** Both requests on thread 7 in one go. *)
Definition both_on_7 : Store * list string :=
  chat_all scripted_llm lookup_tool out_of_steps show_message ∅ (PyInt 7)
           [question; follow_up].

(** The graph invoked for the first request on thread 7. *)
Definition invoked_on_7 : Outcome :=
  invoke scripted_llm lookup_tool out_of_steps ∅
         (initial_state true question) (PyInt 7).

Definition returned (o : Outcome) : AgentState :=
  match out_result o with
  | Return result => result
  | Raise _ => empty_channels
  end.

(** Requests with the model client that is down, with the tool whose
    service is down, and with the model client that asks for thirteen
    lookups. *)
Definition refused : ChatResult :=
  chat failing_llm lookup_tool out_of_steps show_message ∅ (PyInt 7) question.

Definition tool_down : ChatResult :=
  chat scripted_llm broken_tool out_of_steps show_message ∅ (PyInt 7)
       question.

Definition after_tool_down : ChatResult :=
  chat scripted_llm broken_tool out_of_steps show_message
       (chat_store tool_down) (PyInt 7) follow_up.

Definition thirteen_rounds : ChatResult :=
  chat (eager_llm 13) lookup_tool out_of_steps show_message ∅ (PyInt 7)
       question.

Definition twelve_rounds : ChatResult :=
  chat (eager_llm 12) lookup_tool out_of_steps show_message ∅ (PyInt 7)
       question.

End Scenario.

(** ** Scripted sessions and a scripted server *)

Module SessionScenario.

Import Scenario.

(** Lines typed at the command line: a question, an empty line, the quit
    word in capitals, and a line that is never read. *)
Definition typed_lines : list string := [question; ""; "BYE"; follow_up].

Definition after_typed_lines : Store * list string * Exc () :=
  main_loop scripted_llm lookup_tool out_of_steps show_message ∅ typed_lines.

(** Requests on threads 7, 0 and 8, interleaved. *)
Definition mixed_requests : list (Z * string) :=
  [(7%Z, question); (0%Z, question); (8%Z, question); (7%Z, follow_up);
   (0%Z, follow_up)].

Definition after_mixed_requests : Store * list (Z * string) :=
  kickoff_all scripted_llm lookup_tool out_of_steps show_message ∅
              mixed_requests.

(** Two requests on a thread named by a string. *)
Definition after_named_thread : Store * list string :=
  chat_all scripted_llm lookup_tool out_of_steps show_message ∅
           (PyStr "seven") [question; follow_up].

End SessionScenario.

Module TestScenario.

Import TestAgents.

(** A server that counts the requests it gets and answers each with
    status 200, and a server that refuses every connection. *)
Definition answering (seen : nat) (r : Request) : nat * (string + nat) :=
  (S seen, inr 200).

Definition refusing (seen : nat) (r : Request) : nat * (string + nat) :=
  (seen, inl "Connection refused").

Definition ticking (n : nat) : string := "2025-01-01T00:00:" +:+ pretty n.

Definition environment : gmap string string :=
  {[ "OPENAI_API_KEY" := "sk-test" ]}.

Definition preview : string := "https://cardano-preview.blockfrost.io/api".

(** Every module imports and has every name. *)
Definition importing (module_name : string) : string + (string -> bool) :=
  inr (fun _ => true).

Definition start : World nat := initial_world nat 0.

(** The world once the health check and the authentication test have run
    against the answering server: one pass and three failures are
    recorded. *)
Definition after_checks : World nat :=
  (test_authentication nat answering ticking
     (check_server nat answering ticking start).1).1.

End TestScenario.

(** ** Facts about the loop *)

Section Facts.

Variable llm : list Message -> Exc AIReply.
Variable invoke_tool : ToolCall -> Exc string.
Variable recursion_limit_message : string.
Variable message_repr : Message -> string.

#[local] Abbreviation run_node' := (run_node llm invoke_tool).
#[local] Abbreviation tool_messages' := (tool_messages invoke_tool).
#[local] Abbreviation pregel_loop' :=
  (pregel_loop llm invoke_tool recursion_limit_message).
#[local] Abbreviation invoke' :=
  (invoke llm invoke_tool recursion_limit_message).
#[local] Abbreviation chat' :=
  (chat llm invoke_tool recursion_limit_message message_repr).
#[local] Abbreviation chat_all' :=
  (chat_all llm invoke_tool recursion_limit_message message_repr).
#[local] Abbreviation ends_after' := (ends_after llm invoke_tool).
#[local] Abbreviation asks_for_tools' := (asks_for_tools llm invoke_tool).
#[local] Abbreviation out_of_steps' :=
  (GraphRecursionError recursion_limit_message).
#[local] Abbreviation kickoff_all' :=
  (kickoff_all llm invoke_tool recursion_limit_message message_repr).
#[local] Abbreviation main_loop' :=
  (main_loop llm invoke_tool recursion_limit_message message_repr).

(** *** Lists and channel updates *)

Lemma py_last_snoc {A : Type} (l : list A) (x : A) :
  py_last (l ++ [x]) = Return x.
Proof. unfold py_last. now rewrite last_snoc. Qed.

Lemma append_messages_nil s : append_messages s [] = s.
Proof. destruct s. unfold append_messages. simpl. now rewrite app_nil_r. Qed.

Lemma append_messages_app s ms1 ms2 :
  append_messages (append_messages s ms1) ms2
  = append_messages s (ms1 ++ ms2).
Proof. unfold append_messages. simpl. now rewrite app_assoc. Qed.

Lemma apply_only_messages s ms :
  apply_update s (only_messages ms) = append_messages s ms.
Proof. reflexivity. Qed.

(** *** Thread keys *)

Lemma checkpoint_key_str thread_id :
  thread_id <> PyInt 0 -> checkpoint_key thread_id = PyStr (py_str thread_id).
Proof.
  destruct thread_id as [z|s]; simpl; [|reflexivity].
  intros Hne. rewrite decide_False; [reflexivity|congruence].
Qed.

(** Distinct integer threads are filed under distinct keys, and neither
    is filed under the key that new-thread detection reads for the other. *)
Lemma checkpoint_key_int (z1 z2 : Z) :
  z1 <> z2 ->
  checkpoint_key (PyInt z1) <> checkpoint_key (PyInt z2)
  /\ checkpoint_key (PyInt z1) <> PyStr (py_str (PyInt z2)).
Proof.
  intros Hne. simpl.
  destruct (decide (z1 = 0%Z)) as [->|H1], (decide (z2 = 0%Z)) as [->|H2];
    try congruence; split; try discriminate;
    intros [= H]; now apply (inj pretty) in H.
Qed.

(** *** The tool node *)

Lemma tool_messages_return calls : forall results,
  tool_messages' calls = Return results ->
  Forall is_generated results
  /\ getattr_tool_call_id <$> results = Some <$> (tc_id <$> calls)
  /\ pending_after calls results = Some []
  /\ length results = length calls.
Proof.
  induction calls as [|c calls IH]; intros results; simpl.
  - intros [= <-]. repeat split; constructor.
  - unfold tool_message. destruct (invoke_tool c) as [text|e]; simpl;
      [|discriminate].
    destruct (tool_messages' calls) as [later|e]; simpl; [|discriminate].
    intros [= <-]. destruct (IH later eq_refl) as (Hgen & Hids & Hpend & Hlen).
    split; [now constructor|]. split; [|split].
    + rewrite !fmap_cons. simpl. now f_equal.
    + simpl. now rewrite decide_True.
    + simpl. now rewrite Hlen.
Qed.

Lemma tool_messages_last calls results :
  tool_messages' calls = Return results ->
  calls <> [] ->
  exists pre c nm id, results = pre ++ [ToolMessage c nm id].
Proof.
  intros Hret Hne.
  destruct (tool_messages_return _ _ Hret) as (Hgen & Hids & _ & Hlen).
  destruct (exists_last (l := results)) as (pre & m & ->).
  { intros ->. destruct calls; [congruence|discriminate]. }
  exists pre. apply (f_equal last) in Hids.
  rewrite !fmap_last, last_snoc in Hids. simpl in Hids.
  destruct m; simpl in Hids; try (destruct (last calls); discriminate).
  eauto.
Qed.

(** *** One step *)

Lemma should_continue_snoc s m :
  should_continue (append_messages s [m])
  = Return (match getattr_tool_calls m with
            | Some (_ :: _) => route_tools
            | _ => route_end
            end).
Proof.
  unfold should_continue. simpl. now rewrite py_last_snoc.
Qed.

Lemma run_node_agent s :
  run_node' agent s
  = match llm (messages s) with
    | Raise e => Raise e
    | Return r =>
        Return (append_messages s [reply_message r],
                match reply_tool_calls r with
                | [] => None
                | _ :: _ => Some tools
                end)
    end.
Proof.
  unfold run_node. simpl. unfold call_model.
  destruct (llm (messages s)) as [r|e]; simpl; [|reflexivity].
  rewrite apply_only_messages, should_continue_snoc. simpl.
  now destruct (reply_tool_calls r).
Qed.

Lemma run_node_tools s pre c calls :
  messages s = pre ++ [AIMessage c calls] ->
  run_node' tools s
  = match tool_messages' calls with
    | Return results => Return (append_messages s results, Some agent)
    | Raise e => Raise e
    end.
Proof.
  intros E. unfold run_node. simpl. unfold tool_node.
  rewrite E, rev_unit. simpl.
  destruct (pre ++ [AIMessage c calls]) eqn:Hnil;
    [now destruct pre|].
  now destruct (tool_messages' calls).
Qed.

Lemma run_node_appends n s s' nx :
  run_node' n s = Return (s', nx) ->
  exists ms, s' = append_messages s ms /\ Forall is_generated ms.
Proof.
  destruct n.
  - rewrite run_node_agent.
    destruct (llm (messages s)) as [r|e]; [|discriminate].
    intros [= <- _]. eexists; split; [reflexivity|].
    repeat constructor.
  - unfold run_node. simpl. unfold tool_node.
    destruct (messages s) as [|m0 ms0]; [discriminate|].
    destruct (List.find is_ai (rev (m0 :: ms0))) as [[]|]; try discriminate.
    destruct (tool_messages' tool_calls) as [results|e] eqn:Hret; simpl;
      [|discriminate].
    intros [= <- _]. exists results; split; [reflexivity|].
    now apply tool_messages_return in Hret.
Qed.

(** *** The loop *)

Lemma pregel_loop_eq b key store n s :
  pregel_loop' b key store n s
  = match run_node' n s with
    | Raise e => mkOutcome store [(n, messages s)] (Raise e)
    | Return (s', nx) =>
        match b, nx with
        | 0, _ =>
            mkOutcome (<[key := s']> store) [(n, messages s)]
                      (Raise out_of_steps')
        | S _, None =>
            mkOutcome (<[key := s']> store) [(n, messages s)] (Return s')
        | S b', Some n' =>
            log_step n (messages s)
              (pregel_loop' b' key (<[key := s']> store) n' s')
        end
    end.
Proof.
  destruct b; unfold pregel_loop; fold pregel_loop;
    destruct (run_node' n s) as [[s' [n'|]]|e]; reflexivity.
Qed.

Lemma pregel_loop_trace_head b key store n s :
  exists tr, out_trace (pregel_loop' b key store n s) = (n, messages s) :: tr.
Proof.
  rewrite pregel_loop_eq.
  destruct (run_node' n s) as [[s' [n'|]]|e], b; simpl; eauto.
Qed.

(** A run only appends assistant and tool messages to the channels; what
    it saves last, the steps it takes and what it hands back do not depend
    on the storage, and what it returns is what it saved last. *)
Lemma pregel_loop_outcome b : forall n s,
  exists tr ms r,
    Forall is_generated ms
    /\ (forall sf, r = Return sf -> sf = append_messages s ms)
    /\ forall key store,
        store !! key = Some s ->
        pregel_loop' b key store n s
        = mkOutcome (<[key := append_messages s ms]> store) tr r.
Proof.
  induction b as [|b IH]; intros n s;
    destruct (run_node' n s) as [[s' nx]|e] eqn:Hstep.
  - apply run_node_appends in Hstep as Happ. destruct Happ as (ms & -> & Hgen).
    exists [(n, messages s)], ms, (Raise out_of_steps').
    split; [exact Hgen|]. split; [discriminate|].
    intros key store _. rewrite pregel_loop_eq, Hstep. reflexivity.
  - exists [(n, messages s)], [], (Raise e).
    split; [constructor|]. split; [discriminate|].
    intros key store Hs. rewrite pregel_loop_eq, Hstep, append_messages_nil.
    now rewrite insert_id.
  - apply run_node_appends in Hstep as Happ. destruct Happ as (ms & -> & Hgen).
    destruct nx as [n'|].
    + destruct (IH n' (append_messages s ms))
        as (tr & ms2 & r & Hgen2 & Hret & Hloop).
      exists ((n, messages s) :: tr), (ms ++ ms2), r.
      split; [now apply Forall_app|]. split.
      { intros sf Hsf. rewrite <- append_messages_app. now apply Hret. }
      intros key store _. rewrite pregel_loop_eq, Hstep.
      rewrite (Hloop key _ (lookup_insert_eq _ _ _)).
      unfold log_step. simpl.
      now rewrite insert_insert_eq, append_messages_app.
    + exists [(n, messages s)], ms, (Return (append_messages s ms)).
      split; [exact Hgen|]. split; [now intros sf [= <-]|].
      intros key store _. rewrite pregel_loop_eq, Hstep. reflexivity.
  - exists [(n, messages s)], [], (Raise e).
    split; [constructor|]. split; [discriminate|].
    intros key store Hs. rewrite pregel_loop_eq, Hstep, append_messages_nil.
    now rewrite insert_id.
Qed.

(** *** [invoke] and [chat] *)

Lemma entry_state_eq store thread_id user_input :
  apply_update (default empty_channels (store !! checkpoint_key thread_id))
               (initial_state (is_new_thread store thread_id) user_input)
  = entry_state store thread_id user_input.
Proof.
  unfold entry_state, transcript, apply_update. simpl.
  now destruct (store !! checkpoint_key thread_id).
Qed.

(** [chat] in terms of the loop. *)
Lemma chat_eq store thread_id user_input :
  chat' store thread_id user_input
  = let entry := entry_state store thread_id user_input in
    let o := pregel_loop' DEFAULT_RECURSION_LIMIT (checkpoint_key thread_id)
               (<[checkpoint_key thread_id := entry]> store) agent entry in
    mkChat (out_store o) (out_trace o) (reply_text (out_result o)).
Proof.
  unfold chat, chat_try, invoke. rewrite entry_state_eq. simpl.
  f_equal. unfold reply_text.
  destruct (out_result _) as [sf|e]; simpl; [|reflexivity].
  now destruct (py_last (messages sf)).
Qed.

Lemma chat_store_eq store thread_id user_input :
  exists ms,
    Forall is_generated ms
    /\ chat_store (chat' store thread_id user_input)
       = <[checkpoint_key thread_id :=
             append_messages (entry_state store thread_id user_input) ms]>
           store.
Proof.
  rewrite chat_eq. simpl.
  destruct (pregel_loop_outcome DEFAULT_RECURSION_LIMIT agent
              (entry_state store thread_id user_input))
    as (tr & ms & r & Hgen & _ & Hloop).
  exists ms. split; [exact Hgen|].
  rewrite (Hloop _ _ (lookup_insert_eq _ _ _)). simpl.
  apply insert_insert_eq.
Qed.

Lemma chat_transcript store thread_id user_input :
  exists ms,
    Forall is_generated ms
    /\ transcript (chat_store (chat' store thread_id user_input)) thread_id
       = transcript store thread_id
           ++ initial_messages (is_new_thread store thread_id) user_input
           ++ ms.
Proof.
  destruct (chat_store_eq store thread_id user_input) as (ms & Hgen & ->).
  exists ms. split; [exact Hgen|].
  unfold transcript at 1. rewrite lookup_insert_eq. simpl.
  now rewrite <- app_assoc.
Qed.

Lemma chat_other_keys store thread_id user_input key :
  key <> checkpoint_key thread_id ->
  chat_store (chat' store thread_id user_input) !! key = store !! key.
Proof.
  intros Hne.
  destruct (chat_store_eq store thread_id user_input) as (ms & _ & ->).
  now rewrite lookup_insert_ne.
Qed.

Lemma chat_own_key store thread_id user_input :
  is_Some (chat_store (chat' store thread_id user_input)
             !! checkpoint_key thread_id).
Proof.
  destruct (chat_store_eq store thread_id user_input) as (ms & _ & ->).
  rewrite lookup_insert_eq. eauto.
Qed.

(** *** The exchange with the model client and the runs of the graph *)

Lemma alternation_length k : length (alternation k) = 2 * k + 1.
Proof. induction k as [|k IH]; simpl; [reflexivity|]. rewrite IH. lia. Qed.

Lemma take_alternation j : forall k,
  j < k -> take (2 * j + 2) (alternation k) = alternation j ++ [tools].
Proof.
  induction j as [|j IH]; intros [|k] Hlt; try lia; [reflexivity|].
  replace (2 * S j + 2) with (S (S (2 * j + 2))) by lia.
  simpl. rewrite IH by lia. reflexivity.
Qed.

Lemma reply_text_ending w saved :
  (forall a, w = Answered a ->
     exists pre, messages saved = pre ++ [reply_message a]) ->
  reply_text (ending_result w saved) = ending_text w.
Proof.
  destruct w as [a|e|e]; simpl; try reflexivity.
  intros H. destruct (H a eq_refl) as [pre ->].
  now rewrite py_last_snoc.
Qed.

(** A run whose exchange ends after [k] tool rounds, with steps enough. *)
Lemma loop_ends k : forall b key store s w,
  ends_after' k (messages s) w ->
  2 * k + 1 <= b ->
  store !! key = Some s ->
  exists tr saved,
    pregel_loop' b key store agent s
    = mkOutcome (<[key := saved]> store) tr (ending_result w saved)
    /\ tr.*1 = ending_nodes k w
    /\ match w with
       | Answered a => exists pre, messages saved = pre ++ [reply_message a]
       | Failed e =>
           saved = s
           \/ exists pre c nm id, messages saved = pre ++ [ToolMessage c nm id]
       | ToolFailed e =>
           exists pre c calls,
             messages saved = pre ++ [AIMessage c calls]
             /\ calls <> [] /\ tool_messages' calls = Raise e
       end.
Proof.
  induction k as [|k IH]; intros b key store s w Hends Hb Hs.
  - destruct b as [|b]; [lia|]. rewrite pregel_loop_eq, run_node_agent.
    destruct w as [a|e|e]; simpl in Hends.
    + destruct Hends as [Hllm Hcalls]. rewrite Hllm, Hcalls.
      exists [(agent, messages s)], (append_messages s [reply_message a]).
      split; [reflexivity|]. split; [reflexivity|]. now exists (messages s).
    + rewrite Hends. exists [(agent, messages s)], s.
      rewrite (insert_id _ _ _ Hs). split; [reflexivity|].
      split; [reflexivity|]. now left.
    + destruct Hends as (r & Hllm & Htools). rewrite Hllm.
      destruct (reply_tool_calls r) as [|c0 cs] eqn:Hc; [discriminate|].
      set (s1 := append_messages s [reply_message r]).
      rewrite pregel_loop_eq.
      rewrite (run_node_tools s1 (messages s) (reply_content r) (c0 :: cs))
        by (unfold s1, reply_message; simpl; now rewrite Hc).
      rewrite Htools.
      exists [(agent, messages s); (tools, messages s1)], s1.
      split; [reflexivity|]. split; [reflexivity|].
      exists (messages s), (reply_content r), (c0 :: cs).
      unfold s1, reply_message. simpl. rewrite Hc.
      split; [reflexivity|]. split; [discriminate|exact Htools].
  - destruct Hends as (r' & results & Hllm & Hcalls & Htools & Hrest).
    destruct b as [|[|b]]; [lia|lia|].
    rewrite pregel_loop_eq, run_node_agent, Hllm.
    destruct (reply_tool_calls r') as [|c0 cs] eqn:Hc; [congruence|].
    set (s1 := append_messages s [reply_message r']).
    rewrite pregel_loop_eq.
    rewrite (run_node_tools s1 (messages s) (reply_content r') (c0 :: cs))
      by (unfold s1, reply_message; simpl; now rewrite Hc).
    rewrite Htools.
    set (s2 := append_messages s1 results).
    destruct (IH b key (<[key := s2]> (<[key := s1]> store)) s2 w)
      as (tr & saved & Hloop & Htr & Hshape).
    { unfold s2, s1. simpl. now rewrite <- app_assoc. }
    { lia. }
    { apply lookup_insert_eq. }
    exists ((agent, messages s) :: (tools, messages s1) :: tr), saved.
    split; [|split].
    + rewrite Hloop. unfold log_step. simpl.
      now rewrite !insert_insert_eq.
    + rewrite !fmap_cons, Htr. simpl. now destruct w.
    + destruct w as [a|e|e]; try exact Hshape.
      right. destruct Hshape as [->|Hshape]; [|exact Hshape].
      destruct (tool_messages_last _ _ Htools) as (pre & c & nm & id & ->);
        [discriminate|].
      exists (messages s1 ++ pre), c, nm, id.
      unfold s2. simpl. now rewrite <- !app_assoc.
Qed.

(** A run whose model client still asks for tools when the steps are used
    up: it is stopped after the tools step that follows the last step
    allowed. *)
Lemma loop_capped j : forall key store s,
  asks_for_tools' (S j) (messages s) ->
  store !! key = Some s ->
  exists tr saved,
    pregel_loop' (2 * j + 1) key store agent s
    = mkOutcome (<[key := saved]> store) tr (Raise out_of_steps')
    /\ tr.*1 = alternation j ++ [tools]
    /\ exists pre c nm id, messages saved = pre ++ [ToolMessage c nm id].
Proof.
  induction j as [|j IH]; intros key store s Hasks Hs;
    destruct Hasks as (r' & results & Hllm & Hcalls & Htools & Hrest);
    destruct (reply_tool_calls r') as [|c0 cs] eqn:Hc; try congruence;
    set (s1 := append_messages s [reply_message r']);
    set (s2 := append_messages s1 results);
    assert (run_node' tools s1 = Return (s2, Some agent)) as Htoolstep
      by (rewrite (run_node_tools s1 (messages s) (reply_content r')
                     (c0 :: cs))
            by (unfold s1, reply_message; simpl; now rewrite Hc);
          now rewrite Htools).
  - change (2 * 0 + 1) with 1.
    rewrite pregel_loop_eq, run_node_agent, Hllm, Hc. fold s1.
    rewrite pregel_loop_eq, Htoolstep. fold s2.
    exists [(agent, messages s); (tools, messages s1)], s2.
    split; [|split; [reflexivity|]].
    + unfold log_step. simpl. now rewrite insert_insert_eq.
    + destruct (tool_messages_last _ _ Htools) as (pre & c & nm & id & ->);
        [discriminate|].
      exists (messages s1 ++ pre), c, nm, id.
      unfold s2. simpl. now rewrite <- !app_assoc.
  - replace (2 * S j + 1) with (S (S (2 * j + 1))) by lia.
    rewrite pregel_loop_eq, run_node_agent, Hllm, Hc. fold s1.
    rewrite pregel_loop_eq, Htoolstep. fold s2.
    destruct (IH key (<[key := s2]> (<[key := s1]> store)) s2)
      as (tr & saved & Hloop & Htr & Hshape).
    { unfold s2, s1. simpl. now rewrite <- app_assoc. }
    { apply lookup_insert_eq. }
    exists ((agent, messages s) :: (tools, messages s1) :: tr), saved.
    split; [|split; [|exact Hshape]].
    + rewrite Hloop. unfold log_step. simpl.
      now rewrite !insert_insert_eq.
    + rewrite !fmap_cons, Htr. reflexivity.
Qed.

(** Every exchange ends within [j] tool rounds, or has the model client
    ask for tools once more. *)
Lemma exchange_classified j : forall ms,
  (exists k w, k <= j /\ ends_after' k ms w) \/ asks_for_tools' (S j) ms.
Proof.
  induction j as [|j IH]; intros ms;
    (destruct (llm ms) as [r|e] eqn:Hllm;
     [|left; exists 0, (Failed e); split; [lia|exact Hllm]]);
    (destruct (reply_tool_calls r) as [|c0 cs] eqn:Hc;
     [left; exists 0, (Answered r); split; [lia|now split]|]);
    (destruct (tool_messages' (reply_tool_calls r)) as [results|e] eqn:Htools;
     [|left; exists 0, (ToolFailed e); split; [lia|now exists r]]).
  - right. exists r, results. split; [exact Hllm|].
    split; [rewrite Hc; discriminate|]. split; [exact Htools|exact I].
  - destruct (IH (ms ++ reply_message r :: results))
      as [(k & w & Hk & Hends)|Hasks].
    + left. exists (S k), w. split; [lia|]. exists r, results.
      split; [exact Hllm|]. split; [rewrite Hc; discriminate|].
      split; [exact Htools|exact Hends].
    + right. exists r, results. split; [exact Hllm|].
      split; [rewrite Hc; discriminate|]. split; [exact Htools|exact Hasks].
Qed.

Lemma ends_after_asks k : forall ms w k',
  ends_after' k ms w -> k' <= k -> asks_for_tools' k' ms.
Proof.
  induction k as [|k IH]; intros ms w [|k'] Hends Hle; try exact I; [lia|].
  destruct Hends as (r' & results & Hllm & Hcalls & Htools & Hrest).
  exists r', results. repeat split; auto. eapply IH; [exact Hrest|lia].
Qed.

(** [chat] on an exchange that ends within the recursion limit. *)
Lemma chat_ends store thread_id user_input k w :
  ends_after' k (messages (entry_state store thread_id user_input)) w ->
  2 * k + 1 <= DEFAULT_RECURSION_LIMIT ->
  exists tr saved,
    chat' store thread_id user_input
    = mkChat (<[checkpoint_key thread_id := saved]> store) tr (ending_text w)
    /\ tr.*1 = ending_nodes k w
    /\ match w with
       | Answered a => exists pre, messages saved = pre ++ [reply_message a]
       | Failed e =>
           saved = entry_state store thread_id user_input
           \/ exists pre c nm id, messages saved = pre ++ [ToolMessage c nm id]
       | ToolFailed e =>
           exists pre c calls,
             messages saved = pre ++ [AIMessage c calls]
             /\ calls <> [] /\ tool_messages' calls = Raise e
       end.
Proof.
  intros Hends Hle. rewrite chat_eq.
  destruct (loop_ends k DEFAULT_RECURSION_LIMIT (checkpoint_key thread_id)
              (<[checkpoint_key thread_id :=
                   entry_state store thread_id user_input]> store)
              _ w Hends Hle (lookup_insert_eq _ _ _))
    as (tr & saved & Hloop & Htr & Hshape).
  exists tr, saved. cbv zeta. rewrite Hloop. simpl.
  rewrite insert_insert_eq. split; [|split; [exact Htr|exact Hshape]].
  f_equal. apply reply_text_ending. intros a ->. exact Hshape.
Qed.

(** [chat] on an exchange in which the model client asks for tools
    thirteen times. *)
Lemma chat_capped store thread_id user_input :
  asks_for_tools' 13 (messages (entry_state store thread_id user_input)) ->
  exists tr saved,
    chat' store thread_id user_input
    = mkChat (<[checkpoint_key thread_id := saved]> store) tr
             (error_reply out_of_steps')
    /\ tr.*1 = alternation 12 ++ [tools]
    /\ exists pre c nm id, messages saved = pre ++ [ToolMessage c nm id].
Proof.
  intros Hasks. rewrite chat_eq.
  destruct (loop_capped 12 (checkpoint_key thread_id)
              (<[checkpoint_key thread_id :=
                   entry_state store thread_id user_input]> store)
              _ Hasks (lookup_insert_eq _ _ _))
    as (tr & saved & Hloop & Htr & Hshape).
  change (2 * 12 + 1) with DEFAULT_RECURSION_LIMIT in Hloop.
  exists tr, saved. cbv zeta. rewrite Hloop. simpl.
  rewrite insert_insert_eq. auto.
Qed.

(** *** Branching after a model invocation *)


(** *** Termination *)


(** *** Failures *)


(** *** Tool calls and their results *)

Lemma pending_after_app ms1 : forall p ms2,
  pending_after p (ms1 ++ ms2)
  = pending_after p ms1 ≫= fun q => pending_after q ms2.
Proof.
  induction ms1 as [|m ms1 IH]; intros p ms2; simpl; [reflexivity|].
  destruct p as [|c cs], m; simpl; try reflexivity; try apply IH.
  case_decide; [apply IH|reflexivity].
Qed.

Lemma resolved_initial_messages ms is_new user_input :
  resolved ms -> resolved (ms ++ initial_messages is_new user_input).
Proof.
  unfold resolved. intros H. rewrite pending_after_app, H.
  now destruct is_new.
Qed.

Lemma resolved_reply ms r :
  resolved ms -> reply_tool_calls r = [] -> resolved (ms ++ [reply_message r]).
Proof.
  unfold resolved, reply_message. intros H Hc.
  rewrite pending_after_app, H. simpl. now rewrite Hc.
Qed.

Lemma resolved_results pre c calls results :
  resolved pre ->
  tool_messages' calls = Return results ->
  resolved ((pre ++ [AIMessage c calls]) ++ results).
Proof.
  unfold resolved. intros H Hret.
  rewrite !pending_after_app, H. simpl.
  now apply tool_messages_return in Hret.
Qed.

(** Along a run every node is entered ready.  Each tools step is followed
    by an agent step that sees the results of the calls; unless the run is
    stopped there, with the results saved, or a tool raises, and then the
    transcript saved is the one the tools step was entered with.  The
    channels saved last have no pending call, or the run has raised and
    they end with an assistant message whose calls have no result. *)
Lemma pregel_loop_ready b : forall key store n s,
  step_ready n (messages s) ->
  store !! key = Some s ->
  let o := pregel_loop' b key store n s in
  Forall (fun step => step_ready step.1 step.2) (out_trace o)
  /\ (forall i ms,
        out_trace o !! i = Some (tools, ms) ->
        exists pre c calls,
          ms = pre ++ [AIMessage c calls]
          /\ match tool_messages' calls with
             | Return results =>
                 out_trace o !! S i = Some (agent, ms ++ results)
                 \/ (out_trace o !! S i = None
                     /\ out_result o = Raise out_of_steps'
                     /\ messages <$> out_store o !! key
                        = Some (ms ++ results))
             | Raise e =>
                 out_trace o !! S i = None
                 /\ out_result o = Raise e
                 /\ messages <$> out_store o !! key = Some ms
             end)
  /\ exists saved,
      out_store o !! key = Some saved
      /\ (resolved (messages saved)
          \/ exists e pre c calls,
              out_result o = Raise e
              /\ messages saved = pre ++ [AIMessage c calls]
              /\ resolved pre /\ calls <> []).
Proof.
  induction b as [|b IH]; intros key store n s Hready Hs; cbv zeta;
    rewrite pregel_loop_eq; destruct n; simpl in Hready.
  - (* the last step allowed, at the agent node *)
    rewrite run_node_agent. destruct (llm (messages s)) as [a|e]; simpl.
    + split; [apply Forall_singleton; exact Hready|]. split.
      { intros [|i] ms Hi; simpl in Hi; discriminate. }
      eexists. rewrite lookup_insert_eq. split; [reflexivity|].
      destruct (reply_tool_calls a) as [|c0 cs] eqn:Hc.
      * left. now apply resolved_reply.
      * right. exists out_of_steps', (messages s), (reply_content a), (c0 :: cs).
        unfold reply_message. simpl. rewrite Hc.
        repeat split; auto; discriminate.
    + split; [apply Forall_singleton; exact Hready|]. split.
      { intros [|i] ms Hi; simpl in Hi; discriminate. }
      exists s. split; [exact Hs|now left].
  - (* the last step allowed, at the tools node *)
    destruct Hready as (pre & c & calls & Hms & Hpre & Hne).
    rewrite (run_node_tools _ _ _ _ Hms).
    destruct (tool_messages' calls) as [results|e] eqn:Htools; simpl.
    + split; [apply Forall_singleton; simpl; eauto 10|]. split.
      { intros [|i] ms Hi; simpl in Hi; [|discriminate].
        injection Hi as <-. exists pre, c, calls. split; [exact Hms|].
        rewrite Htools. right. rewrite lookup_insert_eq. auto. }
      eexists. rewrite lookup_insert_eq. split; [reflexivity|]. left.
      simpl. rewrite Hms. now apply resolved_results.
    + split; [apply Forall_singleton; simpl; eauto 10|]. split.
      { intros [|i] ms Hi; simpl in Hi; [|discriminate].
        injection Hi as <-. exists pre, c, calls. split; [exact Hms|].
        rewrite Htools, Hs. auto. }
      exists s. split; [exact Hs|]. right. exists e, pre, c, calls. auto.
  - (* a step at the agent node *)
    rewrite run_node_agent. destruct (llm (messages s)) as [a|e]; simpl.
    + destruct (reply_tool_calls a) as [|c0 cs] eqn:Hc; simpl.
      * split; [apply Forall_singleton; exact Hready|]. split.
        { intros [|i] ms Hi; simpl in Hi; discriminate. }
        eexists. rewrite lookup_insert_eq. split; [reflexivity|].
        left. now apply resolved_reply.
      * set (s1 := append_messages s [reply_message a]).
        destruct (IH key (<[key := s1]> store) tools s1)
          as (Hall & Hfollow & Hsaved).
        { exists (messages s), (reply_content a), (c0 :: cs).
          unfold s1, reply_message. simpl. rewrite Hc.
          repeat split; auto; discriminate. }
        { apply lookup_insert_eq. }
        split; [constructor; [exact Hready|exact Hall]|].
        split; [|exact Hsaved].
        intros [|i] ms Hi; simpl in Hi; [discriminate|].
        exact (Hfollow i ms Hi).
    + split; [apply Forall_singleton; exact Hready|]. split.
      { intros [|i] ms Hi; simpl in Hi; discriminate. }
      exists s. split; [exact Hs|now left].
  - (* a step at the tools node *)
    destruct Hready as (pre & c & calls & Hms & Hpre & Hne).
    rewrite (run_node_tools _ _ _ _ Hms).
    destruct (tool_messages' calls) as [results|e] eqn:Htools; simpl.
    + set (s1 := append_messages s results).
      destruct (IH key (<[key := s1]> store) agent s1)
        as (Hall & Hfollow & Hsaved).
      { unfold s1. simpl. rewrite Hms. now apply resolved_results. }
      { apply lookup_insert_eq. }
      split; [constructor; [simpl; eauto 10|exact Hall]|].
      split; [|exact Hsaved].
      intros [|i] ms Hi; simpl in Hi; [|exact (Hfollow i ms Hi)].
      injection Hi as <-. exists pre, c, calls. split; [exact Hms|].
      rewrite Htools. left.
      destruct (pregel_loop_trace_head b key (<[key := s1]> store) agent s1)
        as [tr Htr].
      simpl. rewrite Htr. reflexivity.
    + split; [apply Forall_singleton; simpl; eauto 10|]. split.
      { intros [|i] ms Hi; simpl in Hi; [|discriminate].
        injection Hi as <-. exists pre, c, calls. split; [exact Hms|].
        rewrite Htools, Hs. auto. }
      exists s. split; [exact Hs|]. right. exists e, pre, c, calls. auto.
Qed.


(** *** What [chat] does to the storage *)

Lemma filter_human_generated ms :
  Forall is_generated ms -> List.filter is_human ms = [].
Proof.
  induction 1 as [|m ms Hm _ IH]; simpl; [reflexivity|].
  now destruct m.
Qed.

Lemma filter_system_generated ms :
  Forall is_generated ms -> List.filter is_system ms = [].
Proof.
  induction 1 as [|m ms Hm _ IH]; simpl; [reflexivity|].
  now destruct m.
Qed.

Lemma filter_human_initial is_new user_input :
  List.filter is_human (initial_messages is_new user_input)
  = [HumanMessage user_input].
Proof. now destruct is_new. Qed.

(** The outcome of [chat] on a thread is determined by what the storage
    holds under the key the thread is filed under and under the key that
    new-thread detection reads. *)
Lemma chat_depends_on_own_keys store1 store2 thread_id user_input :
  store1 !! checkpoint_key thread_id = store2 !! checkpoint_key thread_id ->
  store1 !! PyStr (py_str thread_id) = store2 !! PyStr (py_str thread_id) ->
  let res1 := chat' store1 thread_id user_input in
  let res2 := chat' store2 thread_id user_input in
  chat_text res2 = chat_text res1
  /\ chat_trace res2 = chat_trace res1
  /\ chat_store res2 !! checkpoint_key thread_id
     = chat_store res1 !! checkpoint_key thread_id.
Proof.
  intros Hown Hstr res1 res2.
  assert (entry_state store1 thread_id user_input
          = entry_state store2 thread_id user_input) as Hentry.
  { unfold entry_state, transcript, is_new_thread, get_state_values.
    now rewrite Hown, Hstr. }
  unfold res1, res2. rewrite !chat_eq. cbv zeta. rewrite Hentry.
  destruct (pregel_loop_outcome DEFAULT_RECURSION_LIMIT agent
              (entry_state store2 thread_id user_input))
    as (tr & ms & r & _ & _ & Hloop).
  rewrite !(Hloop _ _ (lookup_insert_eq _ _ _)). simpl.
  now rewrite !lookup_insert_eq.
Qed.

Lemma chat_all_app thread_id done : forall store rest,
  chat_all' store thread_id (done ++ rest)
  = let mid := chat_all' store thread_id done in
    let all := chat_all' mid.1 thread_id rest in
    (all.1, mid.2 ++ all.2).
Proof.
  induction done as [|u done IH]; intros store rest; cbn.
  - now destruct (chat_all' store thread_id rest).
  - now rewrite IH.
Qed.

Lemma chat_all_transcript thread_id inputs : forall store,
  exists suffix,
    transcript (chat_all' store thread_id inputs).1 thread_id
    = transcript store thread_id ++ suffix
    /\ List.filter is_human suffix = HumanMessage <$> inputs.
Proof.
  induction inputs as [|u inputs IH]; intros store; cbn.
  - exists []. now rewrite app_nil_r.
  - destruct (IH (chat_store (chat' store thread_id u)))
      as (suffix & -> & Hsuffix).
    destruct (chat_transcript store thread_id u) as (ms & Hgen & ->).
    eexists. split; [now rewrite <- !app_assoc|].
    rewrite !List.filter_app, filter_human_initial, Hsuffix.
    now rewrite (filter_human_generated _ Hgen).
Qed.

(** C6. Over successive requests on one thread the stored transcript only
    grows at its end: after any number of the requests it is a prefix of
    what is stored after all of them, and the user messages added are the
    submitted inputs, in the order submitted. *)
Theorem transcript_grows_in_submission_order
        store thread_id inputs store' texts :
  chat_all' store thread_id inputs = (store', texts) ->
  (exists suffix,
      transcript store' thread_id = transcript store thread_id ++ suffix
      /\ List.filter is_human suffix = HumanMessage <$> inputs)
  /\ (forall done rest,
        inputs = done ++ rest ->
        exists mid texts1,
          chat_all' store thread_id done = (mid, texts1)
          /\ transcript mid thread_id `prefix_of` transcript store' thread_id
          /\ length (transcript store thread_id)
             <= length (transcript mid thread_id)
             <= length (transcript store' thread_id)).
Proof.
  intros Hall. split.
  - destruct (chat_all_transcript thread_id inputs store) as (sfx & E & Hh).
    rewrite Hall in E. eauto.
  - intros done rest ->. rewrite chat_all_app in Hall. cbv zeta in Hall.
    destruct (chat_all' store thread_id done) as [mid t1] eqn:H1.
    simpl in Hall. exists mid, t1. split; [reflexivity|].
    destruct (chat_all_transcript thread_id done store) as (sfx1 & E1 & _).
    destruct (chat_all_transcript thread_id rest mid) as (sfx2 & E2 & _).
    rewrite H1 in E1. simpl in E1.
    destruct (chat_all' mid thread_id rest) as [fin t2].
    simpl in Hall, E2. injection Hall as <- <-.
    split; [rewrite E2; now exists sfx2|].
    rewrite E2, E1, !length_app. lia.
Qed.

(** *** Thread keys *)

Lemma is_new_thread_spec store thread_id :
  is_new_thread store thread_id = true
  <-> store !! PyStr (py_str thread_id) = None.
Proof.
  unfold is_new_thread, get_state_values.
  destruct (store !! PyStr (py_str thread_id)); split; congruence.
Qed.

Lemma is_new_thread_after_chat store thread_id user_input :
  thread_id <> PyInt 0 ->
  is_new_thread (chat_store (chat' store thread_id user_input)) thread_id
  = false.
Proof.
  intros Hne. unfold is_new_thread, get_state_values.
  rewrite <- (checkpoint_key_str _ Hne).
  now destruct (chat_own_key store thread_id user_input) as [saved ->].
Qed.

(** C8, as the code has it.  [is_new_thread] looks up the state saved
    under [str(thread_id)] and answers [True] exactly when there is none.
    [chat] hands [thread_id] on as it was given, and the run writes one
    key of the storage, the one the thread is filed under.  For a string
    and for an integer other than 0 that key is [str(thread_id)], the key
    detection reads, so that after a request the thread is no longer
    taken for new. *)
Theorem detection_reads_the_key_execution_writes :
  (forall store thread_id,
      is_new_thread store thread_id = true
      <-> store !! PyStr (py_str thread_id) = None)
  /\ (forall store thread_id user_input,
        let res := chat' store thread_id user_input in
        is_Some (chat_store res !! checkpoint_key thread_id)
        /\ forall key, key <> checkpoint_key thread_id ->
                       chat_store res !! key = store !! key)
  /\ (forall store thread_id user_input,
        thread_id <> PyInt 0 ->
        let res := chat' store thread_id user_input in
        is_Some (chat_store res !! PyStr (py_str thread_id))
        /\ (forall key, key <> PyStr (py_str thread_id) ->
                        chat_store res !! key = store !! key)
        /\ is_new_thread (chat_store res) thread_id = false).
Proof.
  split; [exact is_new_thread_spec|]. split.
  - intros store thread_id user_input res. split.
    + apply chat_own_key.
    + intros key Hne. now apply chat_other_keys.
  - intros store thread_id user_input Hne res.
    rewrite <- (checkpoint_key_str _ Hne). split; [apply chat_own_key|].
    split; [intros key Hkey; now apply chat_other_keys|].
    now apply is_new_thread_after_chat.
Qed.

(** *** Independence of threads *)

(** A request on thread [t1] followed by one on thread [t2]: when [t1] is
    filed neither under the key of [t2] nor under the key that new-thread
    detection reads for [t2], the first request leaves the entry of [t2]
    alone, the second leaves the entry of [t1] alone, and the second one's
    outcome is what it would have been had the first never run. *)
Lemma requests_do_not_interfere store (t1 t2 : PyVal) input1 input2 :
  checkpoint_key t1 <> checkpoint_key t2 ->
  checkpoint_key t1 <> PyStr (py_str t2) ->
  let res1 := chat' store t1 input1 in
  let res2 := chat' (chat_store res1) t2 input2 in
  let alone := chat' store t2 input2 in
  chat_store res1 !! checkpoint_key t2 = store !! checkpoint_key t2
  /\ chat_store res2 !! checkpoint_key t1 = chat_store res1 !! checkpoint_key t1
  /\ chat_text alone = chat_text res2
  /\ chat_trace alone = chat_trace res2
  /\ chat_store alone !! checkpoint_key t2
     = chat_store res2 !! checkpoint_key t2.
Proof.
  intros Hne Hdetect res1 res2 alone.
  assert (chat_store res1 !! checkpoint_key t2 = store !! checkpoint_key t2)
    as Hkeep by (apply chat_other_keys; congruence).
  assert (chat_store res1 !! PyStr (py_str t2) = store !! PyStr (py_str t2))
    as Hstr by (apply chat_other_keys; congruence).
  split; [exact Hkeep|]. split; [apply chat_other_keys; congruence|].
  exact (chat_depends_on_own_keys (chat_store res1) store t2 input2
           Hkeep Hstr).
Qed.

(** C7. Two requests with the same input on two distinct integer thread
    identifiers that are new to the storage and to new-thread detection:
    neither writes the other's entry, the second one's outcome is what it
    would have been had the first never run, and both threads end with
    the same transcript, which the input alone determines. *)
Theorem fresh_threads_are_independent
        store (z1 z2 : Z) user_input res1 res2 :
  z1 <> z2 ->
  store !! checkpoint_key (PyInt z1) = None ->
  store !! checkpoint_key (PyInt z2) = None ->
  is_new_thread store (PyInt z1) = true ->
  is_new_thread store (PyInt z2) = true ->
  chat' store (PyInt z1) user_input = res1 ->
  chat' (chat_store res1) (PyInt z2) user_input = res2 ->
  chat_store res1 !! checkpoint_key (PyInt z2) = None
  /\ chat_store res2 !! checkpoint_key (PyInt z1)
     = chat_store res1 !! checkpoint_key (PyInt z1)
  /\ (exists alone,
        chat' store (PyInt z2) user_input = alone
        /\ chat_text alone = chat_text res2
        /\ chat_trace alone = chat_trace res2
        /\ chat_store alone !! checkpoint_key (PyInt z2)
           = chat_store res2 !! checkpoint_key (PyInt z2))
  /\ transcript (chat_store res2) (PyInt z2)
     = transcript (chat_store res1) (PyInt z1)
  /\ chat_text res2 = chat_text res1.
Proof.
  intros Hne Hf1 Hf2 Hn1 Hn2 <- <-.
  destruct (checkpoint_key_int z1 z2 Hne) as [Hkeys Hdetect].
  destruct (requests_do_not_interfere store (PyInt z1) (PyInt z2)
              user_input user_input Hkeys Hdetect)
    as (Hkeep & Hother & Htext & Htrace & Hst).
  split; [now rewrite Hkeep|]. split; [exact Hother|].
  split; [eexists; split; [reflexivity|auto]|].
  assert (entry_state store (PyInt z2) user_input
          = entry_state store (PyInt z1) user_input) as Hentry.
  { unfold entry_state, transcript. now rewrite Hf1, Hf2, Hn1, Hn2. }
  unfold transcript. rewrite <- Hst, <- Htext. rewrite !chat_eq. cbv zeta.
  rewrite Hentry.
  destruct (pregel_loop_outcome DEFAULT_RECURSION_LIMIT agent
              (entry_state store (PyInt z1) user_input))
    as (tr & ms & r & _ & _ & Hloop).
  rewrite !(Hloop _ _ (lookup_insert_eq _ _ _)). simpl.
  now rewrite !lookup_insert_eq.
Qed.

(** *** The other channels *)

Lemma run_node_frame n s s' nx :
  run_node' n s = Return (s', nx) ->
  user_query s' = user_query s
  /\ context s' = context s
  /\ response s' = response s.
Proof.
  intros Hstep. apply run_node_appends in Hstep as (ms & -> & _). auto.
Qed.

(** C9. [chat] enters the graph with [user_query] set to the user input
    and [context] and [response] empty; a step of either node leaves the
    three channels as they are, and so they are saved and returned. *)
Theorem only_messages_channel_changes :
  (forall store thread_id user_input,
      apply_update
        (default empty_channels (store !! checkpoint_key thread_id))
        (initial_state (is_new_thread store thread_id) user_input)
      = mkState (messages (entry_state store thread_id user_input))
                user_input "" "")
  /\ (forall n s s' nx,
        run_node' n s = Return (s', nx) ->
        user_query s' = user_query s
        /\ context s' = context s
        /\ response s' = response s)
  /\ (forall store thread_id user_input res,
        chat' store thread_id user_input = res ->
        exists saved,
          chat_store res !! checkpoint_key thread_id = Some saved
          /\ user_query saved = user_input
          /\ context saved = ""
          /\ response saved = "").
Proof.
  split; [intros; apply entry_state_eq|]. split; [exact run_node_frame|].
  intros store thread_id user_input res <-.
  destruct (chat_store_eq store thread_id user_input) as (ms & _ & ->).
  eexists. rewrite lookup_insert_eq. split; [reflexivity|]. auto.
Qed.

(** *** The text handed back *)

(** C10. The text of the final message is its [content] when it has the
    attribute, be it the empty string, and [str] of it when it has not;
    the final message of a finished run is a message, and [chat] returns
    its [content]. *)
Theorem final_text_is_content_else_str :
  (forall o c, getattr_content o = Some c -> final_text message_repr o = c)
  /\ (forall o,
        getattr_content o = None ->
        final_text message_repr o = py_str_object message_repr o)
  /\ final_text message_repr (Msg (AIMessage "" [])) = ""
  /\ (forall store thread_id user_input o result final_message,
        invoke' store
                (initial_state (is_new_thread store thread_id) user_input)
                thread_id = o ->
        out_result o = Return result ->
        last (messages result) = Some final_message ->
        chat' store thread_id user_input
        = mkChat (out_store o) (out_trace o)
                 (final_text message_repr (Msg final_message))
        /\ final_text message_repr (Msg final_message)
           = content final_message).
Proof.
  split; [|split; [|split]].
  - intros o c H. unfold final_text. now rewrite H.
  - intros o H. unfold final_text. now rewrite H.
  - reflexivity.
  - intros store thread_id user_input o result final_message
           <- Hres Hlast.
    unfold chat, chat_try. simpl. rewrite Hres. simpl.
    unfold py_last. rewrite Hlast. simpl. split; reflexivity.
Qed.

(** *** The system prompt *)

(** C1 asks that the first request on a new thread identifier store a
    transcript that begins with one system message followed by the user
    message, and that later requests on the identifier add no system
    message.  On thread 0, the default of [CardanoChatbot], the first
    half holds and the second does not: the thread is filed under the
    integer 0 while detection reads the string "0", so the thread is
    taken for new again and the second request stores the system prompt
    once more, in front of the second user message. *)
Theorem thread_zero_gets_system_prompt_again
        store input1 input2 res1 res2 :
  store !! PyInt 0 = None ->
  store !! PyStr (py_str (PyInt 0)) = None ->
  chat' store (PyInt 0) input1 = res1 ->
  chat' (chat_store res1) (PyInt 0) input2 = res2 ->
  exists ms1 ms2,
    Forall is_generated ms1 /\ Forall is_generated ms2
    /\ transcript (chat_store res1) (PyInt 0)
       = SystemMessage system_prompt :: HumanMessage input1 :: ms1
    /\ transcript (chat_store res2) (PyInt 0)
       = (SystemMessage system_prompt :: HumanMessage input1 :: ms1)
           ++ SystemMessage system_prompt :: HumanMessage input2 :: ms2
    /\ length (List.filter is_system
                 (transcript (chat_store res2) (PyInt 0))) = 2
    /\ is_new_thread (chat_store res2) (PyInt 0) = true.
Proof.
  intros Hfresh Hstr <- <-.
  assert (forall st u,
            chat_store (chat' st (PyInt 0) u) !! PyStr (py_str (PyInt 0))
            = st !! PyStr (py_str (PyInt 0))) as Hkeep
      by (intros; now apply chat_other_keys).
  destruct (chat_transcript store (PyInt 0) input1) as (ms1 & Hg1 & E1).
  destruct (chat_transcript (chat_store (chat' store (PyInt 0) input1))
              (PyInt 0) input2) as (ms2 & Hg2 & E2).
  assert (transcript store (PyInt 0) = []) as Hempty.
  { unfold transcript. change (checkpoint_key (PyInt 0)) with (PyInt 0).
    now rewrite Hfresh. }
  assert (forall st, st !! PyStr (py_str (PyInt 0)) = None ->
                     is_new_thread st (PyInt 0) = true) as Hnew
      by (intros st Hst; now apply is_new_thread_spec).
  rewrite Hempty, (Hnew _ Hstr) in E1.
  rewrite Hnew in E2 by (now rewrite Hkeep).
  change ([] ++ initial_messages true input1 ++ ms1)
    with (SystemMessage system_prompt :: HumanMessage input1 :: ms1) in E1.
  rewrite E1 in E2.
  exists ms1, ms2. split; [exact Hg1|]. split; [exact Hg2|].
  split; [exact E1|]. split; [exact E2|]. split.
  - rewrite E2. cbn. rewrite List.filter_app. cbn.
    now rewrite !filter_system_generated.
  - apply Hnew. now rewrite !Hkeep.
Qed.

(** On a string and on an integer other than 0 the thread is filed under
    the key detection reads, and requests after the first add no system
    message. *)
Lemma chat_all_on_known_thread thread_id inputs : forall store,
  thread_id <> PyInt 0 ->
  is_Some (store !! checkpoint_key thread_id) ->
  List.filter is_system
    (transcript (chat_all' store thread_id inputs).1 thread_id)
  = List.filter is_system (transcript store thread_id)
  /\ is_Some ((chat_all' store thread_id inputs).1
                !! checkpoint_key thread_id).
Proof.
  induction inputs as [|u inputs IH]; intros store Hne Hknown; cbn;
    [auto|].
  destruct (IH (chat_store (chat' store thread_id u)) Hne
               (chat_own_key _ _ _)) as (-> & Hk).
  split; [|exact Hk].
  destruct (chat_transcript store thread_id u) as (ms & Hgen & ->).
  assert (is_new_thread store thread_id = false) as ->.
  { unfold is_new_thread, get_state_values.
    rewrite <- (checkpoint_key_str _ Hne). now destruct Hknown as [s0 ->]. }
  rewrite !List.filter_app, (filter_system_generated _ Hgen). simpl.
  now rewrite app_nil_r.
Qed.

Lemma chat_all_on_fresh_thread thread_id first_input inputs store :
  thread_id <> PyInt 0 ->
  store !! checkpoint_key thread_id = None ->
  let store' := (chat_all' store thread_id (first_input :: inputs)).1 in
  is_new_thread store thread_id = true
  /\ is_new_thread store' thread_id = false
  /\ exists rest,
      transcript store' thread_id
      = SystemMessage system_prompt :: HumanMessage first_input :: rest
      /\ List.filter is_system rest = [].
Proof.
  intros Hne Hfresh store'.
  assert (is_new_thread store thread_id = true) as Hnew.
  { apply is_new_thread_spec. now rewrite <- (checkpoint_key_str _ Hne). }
  split; [exact Hnew|].
  unfold store'. cbn.
  set (res := chat' store thread_id first_input).
  destruct (chat_all_on_known_thread thread_id inputs (chat_store res) Hne
              (chat_own_key _ _ _)) as (Hsys & Hk).
  split.
  { unfold is_new_thread, get_state_values.
    rewrite <- (checkpoint_key_str _ Hne). now destruct Hk as [s1 ->]. }
  destruct (chat_transcript store thread_id first_input)
    as (ms & Hgen & Hms).
  fold res in Hms. rewrite Hnew in Hms. unfold transcript at 2 in Hms.
  rewrite Hfresh in Hms.
  change (default [] (messages <$> None)
            ++ initial_messages true first_input ++ ms)
    with (SystemMessage system_prompt :: HumanMessage first_input :: ms)
    in Hms.
  destruct (chat_all_transcript thread_id inputs (chat_store res))
    as (suffix & Htr & _).
  rewrite Hms in Htr.
  exists (ms ++ suffix). split; [exact Htr|].
  rewrite Htr, Hms in Hsys. cbn in Hsys.
  rewrite List.filter_app in Hsys.
  rewrite (filter_system_generated _ Hgen) in Hsys.
  cbn in Hsys. injection Hsys as Hsys.
  rewrite List.filter_app, (filter_system_generated _ Hgen). exact Hsys.
Qed.

(** *** The loop of the command line *)

Lemma main_loop_cons store line rest :
  is_quit line = false ->
  main_loop' store (line :: rest)
  = let r := chat' store (PyInt 1) line in
    let later := main_loop' (chat_store r) rest in
    (later.1.1,
     prompt :: new_thread_notice store (PyInt 1)
       ++ bot_line (chat_text r) :: later.1.2,
     later.2).
Proof. intros Hline. cbn. now rewrite Hline. Qed.

(** On a thread that is not taken for new, no round writes the notice. *)
Lemma main_loop_on_known_thread : forall stdin store,
  is_new_thread store (PyInt 1) = false ->
  main_loop' store stdin
  = let answered := chat_all' store (PyInt 1) (lines_before_quit stdin) in
    (answered.1, printed_rounds answered.2,
     if existsb is_quit stdin then Return () else Raise EOFError).
Proof.
  induction stdin as [|line rest IH]; intros store Hknown; [reflexivity|].
  destruct (is_quit line) eqn:Hquit.
  - cbn. rewrite Hquit. reflexivity.
  - rewrite (main_loop_cons _ _ _ Hquit). cbv zeta.
    rewrite IH by (now apply is_new_thread_after_chat).
    unfold new_thread_notice. rewrite Hknown. cbn. rewrite Hquit.
    reflexivity.
Qed.

(** X1. The command-line loop answers the lines that come before the first
    "exit" or "bye" (in any letter case) as successive requests on thread 1
    and does not read the lines after it.  For each answered line it writes
    the prompt and the reply, and then one more prompt; the line that
    announces a new thread is written in the first round only, and only
    when the storage held nothing under the string "1" when the loop
    started.  The loop ends by [break] when there is a quit word, with
    [EOFError] when the input runs out. *)
Theorem main_loop_answers_lines_before_quit stdin store :
  main_loop' store stdin
  = let answered := chat_all' store (PyInt 1) (lines_before_quit stdin) in
    (answered.1, printed (new_thread_notice store (PyInt 1)) answered.2,
     if existsb is_quit stdin then Return () else Raise EOFError).
Proof.
  destruct stdin as [|line rest]; [reflexivity|].
  destruct (is_quit line) eqn:Hquit.
  - cbn. rewrite Hquit. reflexivity.
  - rewrite (main_loop_cons _ _ _ Hquit). cbv zeta.
    rewrite main_loop_on_known_thread
      by (now apply is_new_thread_after_chat).
    cbn. rewrite Hquit. reflexivity.
Qed.

(** X2. Whatever the loop of the command line reads, the user messages it
    adds to the transcript of thread 1 are the lines before the first quit
    word, in order: neither the quit word nor any later line reaches the
    agent, and an empty line is sent like any other. *)
Theorem main_loop_stores_lines_before_quit
        store before q after store' out e :
  Forall (fun line => is_quit line = false) before ->
  is_quit q = true ->
  main_loop' store (before ++ q :: after) = (store', out, e) ->
  e = Return ()
  /\ (exists suffix,
        transcript store' (PyInt 1) = transcript store (PyInt 1) ++ suffix
        /\ List.filter is_human suffix = HumanMessage <$> before)
  /\ forall key, key <> checkpoint_key (PyInt 1) -> store' !! key = store !! key.
Proof.
  intros Hbefore Hq. revert store store' out e.
  induction Hbefore as [|line before Hline Hbefore IH];
    intros store store' out e.
  - cbn. rewrite Hq. intros [= <- <- <-]. split; [reflexivity|].
    split; [|auto]. exists []. now rewrite app_nil_r.
  - rewrite <- app_comm_cons, (main_loop_cons _ _ _ Hline). cbv zeta.
    set (r := chat' store (PyInt 1) line).
    destruct (main_loop' (chat_store r) (before ++ q :: after))
      as [[st2 out2] e2] eqn:Hrest.
    cbn. intros [= <- <- <-].
    destruct (IH _ _ _ _ Hrest) as (He & (suffix & Htr & Hhum) & Hother).
    split; [exact He|]. split.
    + destruct (chat_transcript store (PyInt 1) line) as (ms & Hgen & Hms).
      fold r in Hms.
      eexists. split; [rewrite Htr, Hms, <- !app_assoc; reflexivity|].
      rewrite !List.filter_app, filter_human_initial, Hhum.
      now rewrite (filter_human_generated _ Hgen).
    + intros key Hne. rewrite (Hother key Hne).
      now apply chat_other_keys.
Qed.

(** *** Requests through [kickoff_cardanoAgent] *)

Lemma kickoff_all_cons store (z : Z) user_input requests :
  kickoff_all' store ((z, user_input) :: requests)
  = let r := chat' store (PyInt z) user_input in
    let later := kickoff_all' (chat_store r) requests in
    (later.1, (z, chat_text r) :: later.2).
Proof. reflexivity. Qed.

Lemma kickoff_all_projection (z : Z) requests : forall store alone_store,
  store !! checkpoint_key (PyInt z)
  = alone_store !! checkpoint_key (PyInt z) ->
  store !! PyStr (py_str (PyInt z))
  = alone_store !! PyStr (py_str (PyInt z)) ->
  let all := kickoff_all' store requests in
  let alone := chat_all' alone_store (PyInt z) (for_thread z requests) in
  alone.1 !! checkpoint_key (PyInt z) = all.1 !! checkpoint_key (PyInt z)
  /\ alone.2 = for_thread z all.2.
Proof.
  induction requests as [|[z0 u] requests IH];
    intros store alone_store Hown Hstr; [now split|].
  rewrite kickoff_all_cons. cbv zeta. cbn [fst snd for_thread].
  set (r := chat' store (PyInt z0) u).
  destruct (decide (z0 = z)) as [->|Hne].
  - cbn [chat_all fst snd].
    set (r' := chat' alone_store (PyInt z) u).
    destruct (chat_depends_on_own_keys alone_store store (PyInt z) u
                (eq_sym Hown) (eq_sym Hstr)) as (Htext & _ & Hst).
    fold r r' in Htext, Hst.
    assert (chat_store r !! PyStr (py_str (PyInt z))
            = chat_store r' !! PyStr (py_str (PyInt z))) as Hstr'.
    { destruct (decide (PyStr (py_str (PyInt z)) = checkpoint_key (PyInt z)))
        as [->|Hkey]; [exact Hst|].
      unfold r, r'. rewrite !chat_other_keys by exact Hkey. exact Hstr. }
    destruct (IH (chat_store r) (chat_store r') Hst Hstr') as (Hal & Htx).
    split; [exact Hal|]. now rewrite Htx, Htext.
  - destruct (checkpoint_key_int z0 z Hne) as [Hkeys Hdetect].
    apply (IH (chat_store r) alone_store).
    + unfold r. rewrite chat_other_keys by congruence. exact Hown.
    + unfold r. rewrite chat_other_keys by congruence. exact Hstr.
Qed.

(** X4. In a run of requests on several integer threads, what is stored for
    a thread and what is answered on it are what they would be had the
    requests of that thread been made alone, in the same order. *)
Theorem interleaved_requests_project_to_threads
        (z : Z) requests store store' replies :
  kickoff_all' store requests = (store', replies) ->
  exists alone texts,
    chat_all' store (PyInt z) (for_thread z requests) = (alone, texts)
    /\ alone !! checkpoint_key (PyInt z) = store' !! checkpoint_key (PyInt z)
    /\ texts = for_thread z replies.
Proof.
  intros Hall.
  destruct (kickoff_all_projection z requests store store eq_refl eq_refl)
    as (Hal & Htx).
  rewrite Hall in Hal, Htx.
  destruct (chat_all' store (PyInt z) (for_thread z requests))
    as [alone texts].
  exists alone, texts. auto.
Qed.

(** Every request on thread 0 stores the system prompt. *)
Lemma chat_all_on_thread_zero inputs : forall store,
  store !! PyStr (py_str (PyInt 0)) = None ->
  length (List.filter is_system
            (transcript (chat_all' store (PyInt 0) inputs).1 (PyInt 0)))
  = length (List.filter is_system (transcript store (PyInt 0)))
    + length inputs.
Proof.
  induction inputs as [|u inputs IH]; intros store Hstr; cbn [chat_all fst];
    [simpl; lia|].
  rewrite IH by (rewrite chat_other_keys by discriminate; exact Hstr).
  destruct (chat_transcript store (PyInt 0) u) as (ms & Hgen & ->).
  rewrite (proj2 (is_new_thread_spec store (PyInt 0)) Hstr).
  rewrite !List.filter_app, (filter_system_generated _ Hgen).
  cbn. rewrite !length_app. cbn. lia.
Qed.

(** X3. Requests that come through [kickoff_cardanoAgent] name their thread
    by an integer.  On a thread the storage does not know, the system
    prompt is stored by the first request only, whatever the requests on
    other threads in between; except on thread 0, the default of
    [CardanoChatbot], where every request stores it again. *)
Theorem kickoff_threads_store_system_prompt
        requests store store' replies (z : Z) :
  store !! checkpoint_key (PyInt z) = None ->
  store !! PyStr (py_str (PyInt z)) = None ->
  kickoff_all' store requests = (store', replies) ->
  length (List.filter is_system (transcript store' (PyInt z)))
  = if decide (z = 0%Z) then length (for_thread z requests)
    else min 1 (length (for_thread z requests)).
Proof.
  intros Hfresh Hstr Hall.
  destruct (kickoff_all_projection z requests store store eq_refl eq_refl)
    as (Hal & _).
  rewrite Hall in Hal. cbn [fst] in Hal.
  assert (transcript store (PyInt z) = []) as Hempty
      by (unfold transcript; now rewrite Hfresh).
  unfold transcript at 1. rewrite <- Hal. fold (transcript
    (chat_all' store (PyInt z) (for_thread z requests)).1 (PyInt z)).
  destruct (decide (z = 0%Z)) as [->|Hne].
  - rewrite chat_all_on_thread_zero by exact Hstr. now rewrite Hempty.
  - destruct (for_thread z requests) as [|first_input inputs].
    + cbn [chat_all fst]. now rewrite Hempty.
    + destruct (chat_all_on_fresh_thread (PyInt z) first_input inputs store)
        as (_ & _ & rest & -> & Hrest); [congruence|exact Hfresh|].
      cbn. now rewrite Hrest.
Qed.

(** *** A thread named by a string *)

(** X5. On a thread named by a string that the storage does not know, any
    number of successive requests stores the system prompt exactly once, as
    the first message and right before the first user message, and the
    thread is no longer taken for new. *)
Theorem str_thread_stores_system_prompt_once
        store (t : string) first_input inputs store' texts :
  store !! PyStr t = None ->
  chat_all' store (PyStr t) (first_input :: inputs) = (store', texts) ->
  is_new_thread store (PyStr t) = true
  /\ is_new_thread store' (PyStr t) = false
  /\ exists rest,
      transcript store' (PyStr t)
      = SystemMessage system_prompt :: HumanMessage first_input :: rest
      /\ List.filter is_system rest = [].
Proof.
  intros Hfresh Hall.
  pose proof (chat_all_on_fresh_thread (PyStr t) first_input inputs store)
    as Hthread.
  cbv zeta in Hthread. rewrite Hall in Hthread.
  apply Hthread; [discriminate|exact Hfresh].
Qed.

(** *** What is stored of a reply *)


End Facts.

(** ** The scenario, run through the theorems *)

Import Scenario.

Lemma scenario_first_request :
  is_system <$> transcript (chat_store first_on_7) (PyInt 7)
  = [true; false; false; false; false]
  /\ chat_text first_on_7 = "Balance: 1000 lovelace"
  /\ is_new_thread (chat_store first_on_7) (PyInt 7) = false
  /\ is_system <$> transcript (chat_store again_on_7) (PyInt 7)
     = [true; false; false; false; false; false; false; false; false].
Proof. vm_compute. auto. Qed.

(** A call without its result is pending; a result under another
    identifier, or a result that answers no call, breaks the transcript. *)
Example pending_call_is_seen :
  pending_after [] [HumanMessage question; AIMessage "" [address_call]]
  = Some [address_call]
  /\ ~ resolved [HumanMessage question; AIMessage "" [address_call];
                 HumanMessage follow_up]
  /\ pending_after []
       [AIMessage "" [address_call];
        ToolMessage "1000 lovelace" "get_address_details" "call_2"] = None
  /\ ~ resolved [ToolMessage "1000 lovelace" "get_address_details" "call_1"]
  /\ resolved [HumanMessage question; AIMessage "" [address_call];
               ToolMessage "1000 lovelace" "get_address_details" "call_1";
               AIMessage "Balance: 1000 lovelace" []].
Proof. unfold resolved. vm_compute. repeat split; discriminate. Qed.

(** With a model client that is down the first request is answered by the
    apology, and the user message is stored all the same. *)
Example failed_request_keeps_user_message :
  chat_text refused
  = "I encountered an error while processing your request: "
      +:+ "Connection error."
  /\ transcript (chat_store refused) (PyInt 7)
     = [SystemMessage system_prompt; HumanMessage question].
Proof. vm_compute. auto. Qed.

(** Twelve tool rounds are answered, the last step being the 25th. *)
Example twelve_tool_rounds_are_answered :
  chat_text twelve_rounds = "done"
  /\ length (chat_trace twelve_rounds) = 25.
Proof. vm_compute. auto. Qed.







Lemma transcript_grows_in_submission_order_witness :
  chat_all scripted_llm lookup_tool out_of_steps show_message ∅ (PyInt 7)
           [question; follow_up] = (both_on_7.1, both_on_7.2)
  /\ exists suffix,
      transcript both_on_7.1 (PyInt 7) = transcript ∅ (PyInt 7) ++ suffix
      /\ List.filter is_human suffix
         = [HumanMessage question; HumanMessage follow_up].
Proof.
  assert (chat_all scripted_llm lookup_tool out_of_steps show_message ∅
                   (PyInt 7) [question; follow_up]
          = (both_on_7.1, both_on_7.2)) as Hall
      by (vm_compute; reflexivity).
  split; [exact Hall|].
  exact (proj1 (transcript_grows_in_submission_order scripted_llm lookup_tool
                  out_of_steps show_message ∅ (PyInt 7)
                  [question; follow_up] both_on_7.1 both_on_7.2 Hall)).
Defined.

Lemma fresh_threads_are_independent_witness :
  chat_store first_on_7 !! checkpoint_key (PyInt 8) = None
  /\ chat_store then_on_8 !! checkpoint_key (PyInt 7)
     = chat_store first_on_7 !! checkpoint_key (PyInt 7)
  /\ transcript (chat_store then_on_8) (PyInt 8)
     = transcript (chat_store first_on_7) (PyInt 7).
Proof.
  assert ((∅ : Store) !! checkpoint_key (PyInt 7) = None) as Hf7
      by (vm_compute; reflexivity).
  assert ((∅ : Store) !! checkpoint_key (PyInt 8) = None) as Hf8
      by (vm_compute; reflexivity).
  assert (is_new_thread ∅ (PyInt 7) = true) as Hn7 by (vm_compute; reflexivity).
  assert (is_new_thread ∅ (PyInt 8) = true) as Hn8 by (vm_compute; reflexivity).
  destruct (fresh_threads_are_independent scripted_llm lookup_tool
              out_of_steps show_message ∅ 7 8 question first_on_7 then_on_8
              ltac:(lia) Hf7 Hf8 Hn7 Hn8 eq_refl eq_refl)
    as (Ha & Hb & _ & Hc & _).
  auto.
Defined.

Lemma detection_reads_the_key_execution_writes_witness :
  PyInt 7 <> PyInt 0
  /\ is_Some (chat_store first_on_7 !! PyStr "7")
  /\ is_new_thread (chat_store first_on_7) (PyInt 7) = false
  /\ is_new_thread (chat_store first_on_7) (PyInt 8) = true.
Proof.
  assert (PyInt 7 <> PyInt 0) as Hne by discriminate.
  destruct (detection_reads_the_key_execution_writes scripted_llm lookup_tool
              out_of_steps show_message) as (Hnew & _ & Hsame).
  destruct (Hsame ∅ (PyInt 7) question Hne) as (Hwritten & _ & Hknown).
  split; [exact Hne|]. split; [exact Hwritten|]. split; [exact Hknown|].
  apply Hnew. vm_compute. reflexivity.
Defined.

(** C8 as it is stated fails on the code: thread 7 is named by an integer,
    and the one key its request writes is the string "7", the key that
    new-thread detection reads; nothing is stored under the integer. *)
Lemma int_thread_is_filed_under_the_key_detection_reads :
  (forall s : string, PyInt 7 <> PyStr s)
  /\ is_Some (chat_store first_on_7 !! PyStr (py_str (PyInt 7)))
  /\ chat_store first_on_7 !! PyInt 7 = None
  /\ is_new_thread (chat_store first_on_7) (PyInt 7) = false.
Proof.
  split; [discriminate|]. split; [vm_compute; eauto|].
  split; vm_compute; reflexivity.
Qed.

Lemma only_messages_channel_changes_witness :
  exists saved,
    chat_store first_on_7 !! checkpoint_key (PyInt 7) = Some saved
    /\ user_query saved = question /\ context saved = "" /\ response saved = "".
Proof.
  destruct (only_messages_channel_changes scripted_llm lookup_tool
              out_of_steps show_message) as (_ & _ & Hchat).
  apply (Hchat ∅). reflexivity.
Defined.

Lemma final_text_is_content_else_str_witness :
  chat scripted_llm lookup_tool out_of_steps show_message ∅ (PyInt 7) question
  = mkChat (out_store invoked_on_7) (out_trace invoked_on_7)
           "Balance: 1000 lovelace"
  /\ final_text show_message (Opaque "<object>") = "<object>".
Proof.
  destruct (final_text_is_content_else_str scripted_llm lookup_tool
              out_of_steps show_message) as (_ & Hstr & _ & Hchat).
  split; [|apply (Hstr (Opaque "<object>")); reflexivity].
  apply (Hchat ∅ (PyInt 7) question invoked_on_7 (returned invoked_on_7)
               (reply_message balance_reply));
    vm_compute; reflexivity.
Defined.

Lemma thread_zero_gets_system_prompt_again_witness :
  (∅ : Store) !! PyInt 0 = None
  /\ (∅ : Store) !! PyStr (py_str (PyInt 0)) = None
  /\ length (List.filter is_system
               (transcript (chat_store again_on_0) (PyInt 0))) = 2
  /\ is_new_thread (chat_store again_on_0) (PyInt 0) = true.
Proof.
  assert ((∅ : Store) !! PyInt 0 = None) as Hfresh by (vm_compute; reflexivity).
  assert ((∅ : Store) !! PyStr (py_str (PyInt 0)) = None) as Hstr
      by (vm_compute; reflexivity).
  split; [exact Hfresh|]. split; [exact Hstr|].
  destruct (thread_zero_gets_system_prompt_again scripted_llm lookup_tool
              out_of_steps show_message ∅ question follow_up first_on_0
              again_on_0 Hfresh Hstr eq_refl eq_refl)
    as (ms1 & ms2 & _ & _ & _ & _ & Hcount & Hnew).
  split; [exact Hcount|exact Hnew].
Defined.

Import SessionScenario.

Lemma main_loop_answers_lines_before_quit_witness :
  after_typed_lines.1.2
  = ["You: "; "Starting a new thread." +:+ newline;
     "Bot: Balance: 1000 lovelace" +:+ newline;
     "You: "; "Bot: Balance: 1000 lovelace" +:+ newline; "You: "]
  /\ after_typed_lines.2 = Return ().
Proof.
  unfold after_typed_lines.
  rewrite (main_loop_answers_lines_before_quit scripted_llm lookup_tool
             out_of_steps show_message typed_lines ∅).
  vm_compute. auto.
Defined.

Lemma main_loop_stores_lines_before_quit_witness :
  main_loop scripted_llm lookup_tool out_of_steps show_message ∅
            ([question; ""] ++ "BYE" :: [follow_up])
  = after_typed_lines
  /\ after_typed_lines.2 = Return ()
  /\ exists suffix,
      transcript after_typed_lines.1.1 (PyInt 1)
      = transcript ∅ (PyInt 1) ++ suffix
      /\ List.filter is_human suffix
         = [HumanMessage question; HumanMessage ""].
Proof.
  assert (main_loop scripted_llm lookup_tool out_of_steps show_message ∅
                    ([question; ""] ++ "BYE" :: [follow_up])
          = (after_typed_lines.1.1, after_typed_lines.1.2,
             after_typed_lines.2)) as Hloop
      by (vm_compute; reflexivity).
  split; [reflexivity|].
  destruct (main_loop_stores_lines_before_quit scripted_llm lookup_tool
              out_of_steps show_message ∅ [question; ""] "BYE" [follow_up]
              after_typed_lines.1.1 after_typed_lines.1.2
              after_typed_lines.2)
    as (Hend & Hstored & _);
    [repeat constructor|reflexivity|exact Hloop|].
  split; [exact Hend|exact Hstored].
Defined.

Lemma kickoff_threads_store_system_prompt_witness :
  (∅ : Store) !! checkpoint_key (PyInt 7) = None
  /\ (∅ : Store) !! checkpoint_key (PyInt 0) = None
  /\ length (List.filter is_system
               (transcript after_mixed_requests.1 (PyInt 7))) = 1
  /\ length (List.filter is_system
               (transcript after_mixed_requests.1 (PyInt 0))) = 2.
Proof.
  assert ((∅ : Store) !! checkpoint_key (PyInt 7) = None) as H7
      by (vm_compute; reflexivity).
  assert ((∅ : Store) !! PyStr (py_str (PyInt 7)) = None) as H7'
      by (vm_compute; reflexivity).
  assert ((∅ : Store) !! checkpoint_key (PyInt 0) = None) as H0
      by (vm_compute; reflexivity).
  assert ((∅ : Store) !! PyStr (py_str (PyInt 0)) = None) as H0'
      by (vm_compute; reflexivity).
  assert (kickoff_all scripted_llm lookup_tool out_of_steps show_message ∅
                      mixed_requests
          = (after_mixed_requests.1, after_mixed_requests.2)) as Hall
      by (vm_compute; reflexivity).
  split; [exact H7|]. split; [exact H0|]. split.
  - exact (kickoff_threads_store_system_prompt scripted_llm lookup_tool
             out_of_steps show_message mixed_requests ∅
             after_mixed_requests.1 after_mixed_requests.2 7%Z H7 H7' Hall).
  - exact (kickoff_threads_store_system_prompt scripted_llm lookup_tool
             out_of_steps show_message mixed_requests ∅
             after_mixed_requests.1 after_mixed_requests.2 0%Z H0 H0' Hall).
Defined.

Lemma interleaved_requests_project_to_threads_witness :
  kickoff_all scripted_llm lookup_tool out_of_steps show_message ∅
              mixed_requests
  = (after_mixed_requests.1, after_mixed_requests.2)
  /\ exists alone texts,
      chat_all scripted_llm lookup_tool out_of_steps show_message ∅ (PyInt 7)
               [question; follow_up] = (alone, texts)
      /\ alone !! checkpoint_key (PyInt 7)
         = after_mixed_requests.1 !! checkpoint_key (PyInt 7)
      /\ texts = for_thread 7%Z after_mixed_requests.2.
Proof.
  assert (kickoff_all scripted_llm lookup_tool out_of_steps show_message ∅
                      mixed_requests
          = (after_mixed_requests.1, after_mixed_requests.2)) as Hall
      by (vm_compute; reflexivity).
  split; [exact Hall|].
  exact (interleaved_requests_project_to_threads scripted_llm lookup_tool
           out_of_steps show_message 7%Z mixed_requests ∅
           after_mixed_requests.1 after_mixed_requests.2 Hall).
Defined.

Lemma str_thread_stores_system_prompt_once_witness :
  (∅ : Store) !! PyStr "seven" = None
  /\ is_new_thread after_named_thread.1 (PyStr "seven") = false
  /\ exists rest,
      transcript after_named_thread.1 (PyStr "seven")
      = SystemMessage system_prompt :: HumanMessage question :: rest
      /\ List.filter is_system rest = [].
Proof.
  assert ((∅ : Store) !! PyStr "seven" = None) as Hfresh
      by (vm_compute; reflexivity).
  assert (chat_all scripted_llm lookup_tool out_of_steps show_message ∅
                   (PyStr "seven") [question; follow_up]
          = (after_named_thread.1, after_named_thread.2)) as Hall
      by (vm_compute; reflexivity).
  split; [exact Hfresh|].
  destruct (str_thread_stores_system_prompt_once scripted_llm lookup_tool
              out_of_steps show_message ∅ "seven" question [follow_up]
              after_named_thread.1 after_named_thread.2 Hfresh Hall)
    as (_ & Hknown & Hshape).
  split; [exact Hknown|exact Hshape].
Defined.


(** ** Facts about the test script *)

Import TestAgents.

Section ScriptFacts.

Variable Server : Type.
Variable http : Server -> Request -> Server * (string + nat).
Variable now : nat -> string.
Variable environ : gmap string string.
Variable preview_url : string.
Variable config_import_error : option string.
Variable import_module : string -> string + (string -> bool).

#[local] Abbreviation add_result_ := (add_result Server now).
#[local] Abbreviation print_ := (print Server).
#[local] Abbreviation send_ := (send Server http).
#[local] Abbreviation print_summary_ := (print_summary Server).
#[local] Abbreviation check_server_ := (check_server Server http now).
#[local] Abbreviation test_api_endpoint_ :=
  (test_api_endpoint Server http now).
#[local] Abbreviation test_environment_ :=
  (test_environment Server now environ preview_url config_import_error).
#[local] Abbreviation test_python_tools_ :=
  (test_python_tools Server now import_module).
#[local] Abbreviation test_authentication_ :=
  (test_authentication Server http now).
#[local] Abbreviation test_cors_ := (test_cors Server http now).
#[local] Abbreviation test_vector_databases_ :=
  (test_vector_databases Server http now).
#[local] Abbreviation test_cardano_agent_ :=
  (test_cardano_agent Server http now).
#[local] Abbreviation test_legal_agent_ :=
  (test_legal_agent Server http now).
#[local] Abbreviation save_test_results_ := (save_test_results Server now).
#[local] Abbreviation main_ :=
  (main Server http now environ preview_url config_import_error
        import_module).
#[local] Abbreviation run_script_ :=
  (run_script Server http now environ preview_url config_import_error
              import_module).

(** *** The tracker *)

(** The tracker after [add_result]. *)
Lemma add_result_effect test_name ok details (w : World Server) :
  add_result_ test_name ok details w
  = (mkWorld
       (mkTracker (if ok then S (passed (tracker w)) else passed (tracker w))
                  (if ok then failed (tracker w) else S (failed (tracker w)))
                  (S (total (tracker w)))
                  (results (tracker w)
                     ++ [mkResult test_name ok details (now (clock w))]))
       (stdout (fst (add_result_ test_name ok details w)))
       (S (clock w)) (server w) (sent w) (results_file w),
     Return ()).
Proof.
  unfold add_result. destruct ok; [reflexivity|].
  destruct (decide (details = "")) as [->|Hd].
  - reflexivity.
  - cbn. destruct (decide (details = "")); [contradiction|]. reflexivity.
Qed.

Lemma advances_refl (w : World Server) : advances 0 0 w w.
Proof.
  split; [|split; [|reflexivity]].
  - exists []. simpl. rewrite app_nil_r. repeat split; lia.
  - exists []. now rewrite app_nil_r.
Qed.

Lemma advances_trans n1 k1 n2 k2 (w w1 w2 : World Server) :
  advances n1 k1 w w1 -> advances n2 k2 w1 w2 ->
  advances (n1 + n2) (k1 + k2) w w2.
Proof.
  intros ((rs1 & Hl1 & Hr1 & Hp1 & Hf1 & Ht1) & (qs1 & Hk1 & Hs1) & Hfile1)
         ((rs2 & Hl2 & Hr2 & Hp2 & Hf2 & Ht2) & (qs2 & Hk2 & Hs2) & Hfile2).
  split; [|split; [|congruence]].
  - exists (rs1 ++ rs2).
    pose proof (List.filter_length_le res_passed rs1).
    pose proof (List.filter_length_le res_passed rs2).
    rewrite List.filter_app, !length_app.
    rewrite Hr2, Hr1, Hp2, Hp1, Hf2, Hf1, Ht2, Ht1, <- app_assoc.
    repeat split; lia.
  - exists (qs1 ++ qs2). rewrite length_app, Hs2, Hs1, <- app_assoc.
    split; [lia|reflexivity].
Qed.

Lemma advances_tracker_ok n k (w w' : World Server) :
  advances n k w w' -> tracker_ok (tracker w) -> tracker_ok (tracker w').
Proof.
  intros ((rs & Hl & Hr & Hp & Hf & Ht) & _) (H1 & H2 & H3).
  pose proof (List.filter_length_le res_passed rs).
  unfold tracker_ok. rewrite Hr, Hp, Hf, Ht, List.filter_app, !length_app.
  repeat split; lia.
Qed.

Lemma runs_ret {A : Type} (a : A) : runs 0 0 (mret a : Script Server A).
Proof. intros w. exists a, w. split; [reflexivity|apply advances_refl]. Qed.

Lemma runs_bind {A B : Type} n1 k1 n2 k2 n k
      (m : Script Server A) (f : A -> Script Server B) :
  runs n1 k1 m -> (forall a, runs n2 k2 (f a)) ->
  n = n1 + n2 -> k = k1 + k2 ->
  runs n k (m ≫= f).
Proof.
  intros Hm Hf -> -> w.
  destruct (Hm w) as (a & w1 & Hrun1 & Hadv1).
  destruct (Hf a w1) as (b & w2 & Hrun2 & Hadv2).
  exists b, w2. split; [|eapply advances_trans; eauto].
  unfold mbind, Script_bind. now rewrite Hrun1.
Qed.

Lemma runs_print line : runs 0 0 (print_ line).
Proof.
  intros w. eexists _, _. split; [reflexivity|].
  split; [|split; [|reflexivity]]; simpl.
  - exists []. simpl. rewrite app_nil_r. repeat split; lia.
  - exists []. now rewrite app_nil_r.
Qed.

Lemma runs_add_result test_name ok details :
  runs 1 0 (add_result_ test_name ok details).
Proof.
  intros w. eexists _, _. split; [apply add_result_effect|].
  split; [|split; [|reflexivity]]; simpl.
  - exists [mkResult test_name ok details (now (clock w))].
    simpl. destruct ok; simpl; repeat split; lia.
  - exists []. now rewrite app_nil_r.
Qed.

Lemma runs_send r : runs 0 1 (send_ r).
Proof.
  intros w. unfold send.
  destruct (http (server w) r) as [server' answer] eqn:Hhttp.
  eexists _, _. split; [reflexivity|].
  split; [|split; [|reflexivity]]; simpl.
  - exists []. simpl. rewrite app_nil_r. repeat split; lia.
  - now exists [r].
Qed.

Lemma runs_read_tracker : runs 0 0 (read_tracker Server).
Proof. intros w. exists (tracker w), w. split; [reflexivity|apply advances_refl]. Qed.

(** Decomposing an action of the script into its steps. *)
Ltac runs_auto :=
  lazymatch goal with
  | |- runs _ _ (mbind _ _) =>
      eapply runs_bind;
      [runs_auto | intros; runs_auto | try reflexivity; lia ..]
  | |- runs _ _ (mret _) => apply runs_ret
  | |- runs _ _ (print _ _) => apply runs_print
  | |- runs _ _ (add_result _ _ _ _ _) => apply runs_add_result
  | |- runs _ _ (send _ _ _) => apply runs_send
  | |- runs _ _ (read_tracker _) => apply runs_read_tracker
  | |- runs _ _ (match ?x with _ => _ end) => destruct x; runs_auto
  end.

Lemma runs_print_summary : runs 0 0 print_summary_.
Proof. unfold print_summary. runs_auto. Qed.

Lemma runs_check_server : runs 1 1 check_server_.
Proof. unfold check_server. runs_auto. Qed.

(** *** One endpoint test *)

(** X8. Called with a method other than "GET" and "POST",
    [test_api_endpoint] sends nothing and records nothing: it raises
    [UnboundLocalError], which its [except] clause does not catch. *)
Theorem test_api_endpoint_other_method_raises
        endpoint method data expected_status test_name (w : World Server) :
  method <> "GET" -> method <> "POST" ->
  test_api_endpoint_ endpoint method data expected_status test_name w
  = (w, Raise (UnboundLocalError "response")).
Proof.
  intros Hget Hpost. unfold test_api_endpoint.
  destruct (decide (method = "GET")); [contradiction|].
  destruct (decide (method = "POST")); [contradiction|].
  reflexivity.
Qed.

(** X7. Called with "GET" or "POST", [test_api_endpoint] sends exactly one
    request, to the endpoint under [API_BASE] and with the secret token
    (and a JSON content type for "POST" only), and records exactly one
    result under the given name.  The result is a pass, and the call
    returns [True], exactly when the response has the expected status; a
    [RequestException] is recorded as a failure and does not propagate. *)
Theorem test_api_endpoint_records_one_result
        endpoint method data expected_status test_name (w : World Server) :
  method = "GET" \/ method = "POST" ->
  exists w' ok request answer details,
    test_api_endpoint_ endpoint method data expected_status test_name w
    = (w', Return ok)
    /\ sent w' = sent w ++ [request]
    /\ req_url request = API_BASE +:+ endpoint
    /\ req_headers request !! "Secret-token" = Some SECRET_TOKEN
    /\ req_headers request !! "Content-Type"
       = (if decide (method = "POST") then Some "application/json" else None)
    /\ http (server w) request = (server w', answer)
    /\ ok = bool_decide (answer = inr expected_status)
    /\ results (tracker w')
       = results (tracker w)
           ++ [mkResult test_name ok details (now (clock w))]
    /\ (ok = true -> details = "")
    /\ total (tracker w') = S (total (tracker w)).
Proof.
  intros Hmethod. unfold test_api_endpoint.
  set (headers := get_auth_headers (bool_decide (method = "POST"))).
  set (request :=
         mkRequest (if decide (method = "GET") then GET else POST)
                   (API_BASE +:+ endpoint) headers
                   (if decide (method = "GET") then None else data) 30).
  assert (headers !! "Secret-token" = Some SECRET_TOKEN
          /\ headers !! "Content-Type"
             = if decide (method = "POST") then Some "application/json"
               else None) as [Htoken Hcontent].
  { unfold headers, get_auth_headers.
    destruct (decide (method = "POST")) as [->|Hne].
    - rewrite bool_decide_eq_true_2 by reflexivity.
      split; [now rewrite lookup_insert_ne, lookup_singleton_eq|].
      apply lookup_insert_eq.
    - rewrite bool_decide_eq_false_2 by exact Hne.
      split; [apply lookup_singleton_eq|].
      now rewrite lookup_singleton_ne. }
  destruct (http (server w) request) as [server' answer] eqn:Hhttp.
  assert ((if decide (method = "GET") then
             answer ← send_ (mkRequest GET (API_BASE +:+ endpoint) headers
                                       None 30);
             mret (Some answer)
           else if decide (method = "POST") then
             answer ← send_ (mkRequest POST (API_BASE +:+ endpoint) headers
                                       data 30);
             mret (Some answer)
           else mret None) w
          = (mkWorld (tracker w) (stdout w) (clock w) server'
                     (sent w ++ [request]) (results_file w),
             Return (Some answer))) as Hsend.
  { unfold request in Hhttp.
    destruct Hmethod as [-> | ->]; simpl in *;
      unfold mbind, Script_bind, send; rewrite Hhttp; reflexivity. }
  unfold mbind at 1. unfold Script_bind at 1. rewrite Hsend.
  destruct answer as [e|status_code].
  - unfold mbind, Script_bind. rewrite add_result_effect.
    eexists _, false, request, (inl e), _. split; [reflexivity|]. simpl.
    repeat split; auto; discriminate.
  - destruct (decide (status_code = expected_status)) as [->|Hne].
    + unfold mbind, Script_bind. rewrite add_result_effect.
      eexists _, true, request, (inr expected_status), _.
      split; [reflexivity|]. simpl.
      rewrite bool_decide_eq_true_2 by reflexivity. repeat split; auto.
    + unfold mbind, Script_bind. rewrite add_result_effect.
      eexists _, false, request, (inr status_code), _.
      split; [reflexivity|]. simpl.
      rewrite bool_decide_eq_false_2 by congruence.
      repeat split; auto; discriminate.
Qed.

(** *** The tests, by what they record and send *)

Lemma runs_bind_assoc {A B C : Type} n k (m : Script Server A)
      (g : A -> Script Server B) (f : B -> Script Server C) :
  runs n k (m ≫= fun a => g a ≫= f) -> runs n k ((m ≫= g) ≫= f).
Proof.
  intros H w. destruct (H w) as (c & w' & Hrun & Hadv).
  exists c, w'. split; [|exact Hadv].
  unfold mbind, Script_bind in *. now destruct (m w) as [w1 [a|e]].
Qed.

Lemma runs_ret_bind {A B : Type} n k (a : A) (f : A -> Script Server B) :
  runs n k (f a) -> runs n k (mret a ≫= f).
Proof. intros H w. exact (H w). Qed.

Lemma runs_test_api_endpoint endpoint method data expected_status test_name :
  method = "GET" \/ method = "POST" ->
  runs 1 1 (test_api_endpoint_ endpoint method data expected_status test_name).
Proof.
  intros [-> | ->]; unfold test_api_endpoint.
  - rewrite decide_True by reflexivity. apply runs_bind_assoc.
    eapply runs_bind; [apply runs_send| |reflexivity|reflexivity].
    intros answer. apply runs_ret_bind. runs_auto.
  - rewrite decide_False by discriminate.
    rewrite decide_True by reflexivity. apply runs_bind_assoc.
    eapply runs_bind; [apply runs_send| |reflexivity|reflexivity].
    intros answer. apply runs_ret_bind. runs_auto.
Qed.

Lemma runs_auth_probe headers test_data expected_status test_name :
  runs 1 1 (auth_probe Server http now headers test_data expected_status
                       test_name).
Proof. unfold auth_probe. runs_auto. Qed.

Ltac runs_tests :=
  lazymatch goal with
  | |- runs _ _ (mbind _ _) =>
      eapply runs_bind;
      [runs_tests | intros; runs_tests | try reflexivity; lia ..]
  | |- runs _ _ (test_api_endpoint _ _ _ _ _ _ _ _) =>
      apply runs_test_api_endpoint; auto
  | |- runs _ _ (auth_probe _ _ _ _ _ _ _) => apply runs_auth_probe
  | |- _ => runs_auto
  end.

Lemma runs_test_authentication : runs 3 3 test_authentication_.
Proof. unfold test_authentication. runs_tests. Qed.

Lemma runs_test_cors : runs 1 1 test_cors_.
Proof. unfold test_cors. runs_tests. Qed.

Lemma runs_test_vector_databases : runs 4 4 test_vector_databases_.
Proof. unfold test_vector_databases. runs_tests. Qed.

Lemma runs_test_cardano_agent : runs 3 3 test_cardano_agent_.
Proof. unfold test_cardano_agent. runs_tests. Qed.

Lemma runs_test_legal_agent : runs 3 3 test_legal_agent_.
Proof. unfold test_legal_agent. runs_tests. Qed.

Lemma runs_test_environment :
  runs (environment_results config_import_error) 0 test_environment_.
Proof.
  unfold test_environment, environment_results.
  destruct config_import_error; [runs_tests|].
  eapply runs_bind; [apply runs_print| |reflexivity|reflexivity].
  intros _. eapply (runs_bind 1 0 1 0); [| |reflexivity|reflexivity].
  - destruct (Config.OPENAI_API_KEY _) as [key|]; [|apply runs_add_result].
    destruct (bool_decide (key <> "") && String.prefix "sk-" key);
      apply runs_add_result.
  - intros _.
    destruct (Config.BLOCKFROST_PROJECT_ID _) as [[|c id]|];
      apply runs_add_result.
Qed.

Lemma runs_check_tool_names module_name has tool_names :
  runs (length tool_names) 0
       (check_tool_names Server now module_name has tool_names).
Proof.
  induction tool_names as [|tool_name rest IH]; simpl; [apply runs_ret|].
  eapply (runs_bind 1 0); [| intros _; exact IH |reflexivity|reflexivity].
  destruct (has tool_name); apply runs_add_result.
Qed.

Lemma runs_check_modules modules :
  runs (module_results import_module modules) 0
       (check_modules Server now import_module modules).
Proof.
  induction modules as [|[module_name tool_names] rest IH]; simpl;
    [apply runs_ret|].
  eapply (runs_bind _ 0); [| intros _; exact IH |reflexivity|reflexivity].
  destruct (import_module module_name) as [e|has];
    [apply runs_add_result|apply runs_check_tool_names].
Qed.

Lemma runs_test_python_tools :
  runs (module_results import_module tools_to_test) 0 test_python_tools_.
Proof.
  unfold test_python_tools.
  eapply runs_bind; [apply runs_print| |reflexivity|reflexivity].
  intros _. apply runs_check_modules.
Qed.

(** *** Stepping through the script *)

Lemma bind_eq {A B : Type} (m : Script Server A) (f : A -> Script Server B)
      w w1 a :
  m w = (w1, Return a) -> (m ≫= f) w = f a w1.
Proof. intros H. unfold mbind, Script_bind. now rewrite H. Qed.

Lemma runs_then {A B : Type} n k (m : Script Server A)
      (f : A -> Script Server B) :
  runs n k m ->
  forall w, exists a w1, advances n k w w1 /\ (m ≫= f) w = f a w1.
Proof.
  intros Hm w. destruct (Hm w) as (a & w1 & Hrun & Hadv).
  exists a, w1. split; [exact Hadv|]. now apply bind_eq.
Qed.

Lemma print_summary_effect (w : World Server) :
  exists out,
    print_summary_ w
    = (mkWorld (tracker w) out (clock w) (server w) (sent w) (results_file w),
       Return (bool_decide (failed (tracker w) = 0))).
Proof.
  unfold print_summary, mbind, Script_bind, read_tracker, print. simpl.
  destruct (decide (failed (tracker w) = 0)) as [H0|Hne].
  - rewrite bool_decide_eq_true_2 by exact H0. eexists. reflexivity.
  - rewrite bool_decide_eq_false_2 by exact Hne. eexists. reflexivity.
Qed.

Lemma send_effect r (w : World Server) server' answer :
  http (server w) r = (server', answer) ->
  send_ r w
  = (mkWorld (tracker w) (stdout w) (clock w) server' (sent w ++ [r])
             (results_file w), Return answer).
Proof. intros H. unfold send. now rewrite H. Qed.

Lemma print_effect line (w : World Server) :
  print_ line w
  = (mkWorld (tracker w) (stdout w ++ [line]) (clock w) (server w) (sent w)
             (results_file w), Return ()).
Proof. reflexivity. Qed.

(** Running the first action of a sequence. *)
Ltac script_step :=
  first
    [ erewrite bind_eq by apply print_effect
    | erewrite bind_eq by apply add_result_effect
    | erewrite bind_eq by (apply send_effect; eassumption) ];
  cbn [tracker stdout clock server sent results_file].

Lemma check_server_outcome (w : World Server) :
  exists w1 details,
    check_server_ w = (w1, Return (server_up http w))
    /\ advances 1 1 w w1
    /\ sent w1 = sent w ++ [health_request]
    /\ results (tracker w1)
       = results (tracker w)
           ++ [mkResult "Server Health Check" (server_up http w) details
                        (now (clock w))].
Proof.
  destruct (runs_check_server w) as (a & w' & Hrun & Hadv).
  revert Hrun. unfold check_server, server_up.
  fold health_request.
  destruct (http (server w) health_request) as [server' answer] eqn:Hhttp.
  script_step. script_step. cbn [snd].
  destruct answer as [e|status_code].
  - script_step. script_step.
    intros [= <- <-]. eexists _, _. split; [reflexivity|].
    split; [exact Hadv|]. split; reflexivity.
  - destruct (decide (status_code = 200)) as [->|Hne].
    + script_step. intros [= <- <-]. eexists _, _. split; [reflexivity|].
      split; [exact Hadv|]. split; reflexivity.
    + script_step. rewrite bool_decide_eq_false_2 by congruence.
      intros [= <- <-]. eexists _, _. split; [reflexivity|].
      split; [exact Hadv|]. split; reflexivity.
Qed.

Lemma all_passed_length (rs : list TestResult) :
  length (List.filter res_passed rs) = length rs
  <-> Forall (fun r => res_passed r = true) rs.
Proof.
  induction rs as [|r rs IH]; simpl; [split; auto|].
  pose proof (List.filter_length_le res_passed rs).
  destruct (res_passed r) eqn:Hr; simpl.
  - split.
    + intros [= H']. constructor; [exact Hr|now apply IH].
    + intros H'. inversion H'; subst. f_equal. now apply IH.
  - split; [lia|]. intros H'. inversion H'; subst. congruence.
Qed.

Lemma tracker_ok_verdict (t : TestTracker) :
  tracker_ok t ->
  failed t = 0 <-> Forall (fun r => res_passed r = true) (results t).
Proof.
  intros (H1 & H2 & H3). rewrite <- all_passed_length. lia.
Qed.

(** X9. On a tracker whose counters agree with its results,
    [print_summary] returns [True] exactly when every recorded result is a
    pass; it changes nothing but standard output. *)
Theorem print_summary_reports_all_passed (w : World Server) :
  tracker_ok (tracker w) ->
  exists w' verdict,
    print_summary_ w = (w', Return verdict)
    /\ (verdict = true
        <-> Forall (fun r => res_passed r = true) (results (tracker w)))
    /\ tracker w' = tracker w
    /\ sent w' = sent w
    /\ results_file w' = results_file w.
Proof.
  intros Hok. destruct (print_summary_effect w) as (out & Heq).
  eexists _, _. split; [exact Heq|]. simpl.
  split; [|repeat split].
  rewrite bool_decide_eq_true. now apply tracker_ok_verdict.
Qed.

(** *** [main] *)

Lemma main_down_outcome (w : World Server) :
  server_up http w = false ->
  exists w1 out details,
    main_ w
    = (mkWorld (tracker w1) out (clock w1) (server w1) (sent w1)
               (results_file w1), Return false)
    /\ advances 1 1 w w1
    /\ sent w1 = sent w ++ [health_request]
    /\ results (tracker w1)
       = results (tracker w)
           ++ [mkResult "Server Health Check" false details (now (clock w))].
Proof.
  intros Hdown. unfold main. do 8 script_step.
  match goal with
  | |- context [mbind _ (check_server _ _ _) ?wp] =>
      destruct (check_server_outcome wp)
        as (w1 & details & Hcheck & Hadv & Hsent & Hres)
  end.
  unfold server_up in Hcheck, Hres. cbn [server sent tracker clock] in *.
  fold (server_up http w) in Hcheck, Hres. rewrite Hdown in Hcheck, Hres.
  erewrite bind_eq by exact Hcheck. cbn [negb]. script_step.
  destruct Hadv as (Ht & Hs & Hfile).
  eexists w1, _, details. split; [reflexivity|].
  split; [|split; [exact Hsent|exact Hres]].
  split; [exact Ht|]. split; [exact Hs|exact Hfile].
Qed.

Lemma save_test_results_effect (w : World Server) :
  save_test_results_ w
  = (mkWorld (tracker w)
             (stdout w
                ++ [newline +:+ "Test results saved to test_results.json"])
             (S (clock w)) (server w) (sent w)
             (Some (mkReport (now (clock w)) (total (tracker w))
                             (passed (tracker w)) (failed (tracker w))
                             (results (tracker w)))),
     Return ()).
Proof. reflexivity. Qed.

Ltac run_test H w2 Hadv :=
  match goal with
  | |- context [mbind ?f ?m ?w1] =>
      destruct (runs_then _ _ m f H w1) as (? & w2 & Hadv & ->)
  end.

Lemma main_up_outcome (w : World Server) :
  server_up http w = true ->
  exists w1 out details,
    main_ w
    = (mkWorld (tracker w1) out (S (clock w1)) (server w1) (sent w1)
               (Some (mkReport (now (clock w1)) (total (tracker w1))
                               (passed (tracker w1)) (failed (tracker w1))
                               (results (tracker w1)))),
       Return (bool_decide (failed (tracker w1) = 0)))
    /\ advances (full_run_results config_import_error import_module) 15 w w1
    /\ (exists later, sent w1 = sent w ++ health_request :: later)
    /\ (exists later,
          results (tracker w1)
          = results (tracker w)
              ++ mkResult "Server Health Check" true details (now (clock w))
                   :: later).
Proof.
  intros Hup. unfold main. do 8 script_step.
  match goal with
  | |- context [mbind _ (check_server _ _ _) ?wp] =>
      destruct (check_server_outcome wp)
        as (w1 & details & Hcheck & Hadv1 & Hsent & Hres)
  end.
  unfold server_up in Hcheck, Hres. cbn [server sent tracker clock] in *.
  fold (server_up http w) in Hcheck, Hres. rewrite Hup in Hcheck, Hres.
  erewrite bind_eq by exact Hcheck. cbn [negb].
  run_test runs_test_environment w2 Hadv2.
  run_test runs_test_python_tools w3 Hadv3.
  run_test runs_test_authentication w4 Hadv4.
  run_test runs_test_cors w5 Hadv5.
  run_test runs_test_vector_databases w6' Hadv6.
  run_test runs_test_cardano_agent w7 Hadv7.
  run_test runs_test_legal_agent w6 Hadv8.
  destruct (print_summary_effect w6) as (out & Hsummary).
  erewrite bind_eq by exact Hsummary.
  erewrite bind_eq by apply save_test_results_effect.
  cbn [tracker stdout clock server sent results_file].
  assert (advances (full_run_results config_import_error import_module) 15
                   w w6) as Hall.
  { unfold full_run_results.
    replace 15 with (1 + (0 + (0 + (3 + (1 + (4 + (3 + 3))))))) by reflexivity.
    replace 14 with (3 + (1 + (4 + (3 + 3)))) by reflexivity.
    destruct Hadv1 as (Ht & Hs & Hfile).
    eapply advances_trans; [split; [exact Ht|split; [exact Hs|exact Hfile]]|].
    repeat (eapply advances_trans; [eassumption|]). eassumption. }
  eexists w6, _, details. split; [reflexivity|]. split; [exact Hall|].
  assert (forall n k (wa wb : World Server),
             advances n k wa wb ->
             (exists qs, sent wb = sent wa ++ qs)
             /\ exists rs, results (tracker wb) = results (tracker wa) ++ rs)
    as Hgrow.
  { intros n k wa wb ((rs & _ & Hr & _) & (qs & _ & Hq) & _). eauto. }
  assert (advances (environment_results config_import_error
                    + (module_results import_module tools_to_test + 14)) 14
                   w1 w6) as Hrest.
  { replace 14 with (0 + (0 + (3 + (1 + (4 + (3 + 3)))))) at 2 by reflexivity.
    replace 14 with (3 + (1 + (4 + (3 + 3)))) by reflexivity.
    repeat (eapply advances_trans; [eassumption|]). eassumption. }
  destruct (Hgrow _ _ _ _ Hrest) as ((qs & Hqs) & (rs & Hrs)).
  split.
  - exists qs. now rewrite Hqs, Hsent, <- app_assoc.
  - exists rs. now rewrite Hrs, Hres, <- app_assoc.
Qed.

(** X10. When the health check fails, [main] returns [False] after that one
    request: the health check is the only result recorded, a failure, no
    other test runs and the results file is not written. *)
Theorem main_stops_when_server_is_down (w : World Server) :
  server_up http w = false ->
  exists w' details,
    main_ w = (w', Return false)
    /\ sent w' = sent w ++ [health_request]
    /\ results (tracker w')
       = results (tracker w)
           ++ [mkResult "Server Health Check" false details (now (clock w))]
    /\ failed (tracker w') = S (failed (tracker w))
    /\ passed (tracker w') = passed (tracker w)
    /\ results_file w' = results_file w.
Proof.
  intros Hdown.
  destruct (main_down_outcome w Hdown)
    as (w1 & out & details & Hmain & Hadv & Hsent & Hres).
  destruct Hadv as ((rs & Hlen & Hrs & Hp & Hf & _) & _ & Hfile).
  rewrite Hres in Hrs. apply app_inv_head in Hrs. subst rs.
  simpl in Hp, Hf.
  eexists _, details. split; [exact Hmain|]. simpl.
  repeat split; auto; lia.
Qed.

(** X11. When the health check succeeds, [main] sends fifteen requests in
    all, the health check first, runs every test, and writes the results
    file with the counters and the results of the tracker as they are at
    the end; it returns [True] exactly when every recorded result is a
    pass. *)
Theorem main_runs_all_tests_and_saves (w : World Server) :
  server_up http w = true ->
  tracker_ok (tracker w) ->
  exists w' success report,
    main_ w = (w', Return success)
    /\ length (sent w') = length (sent w) + 15
    /\ (exists later, sent w' = sent w ++ health_request :: later)
    /\ length (results (tracker w'))
       = length (results (tracker w))
         + full_run_results config_import_error import_module
    /\ results_file w' = Some report
    /\ rep_total report = total (tracker w')
    /\ rep_passed report = passed (tracker w')
    /\ rep_failed report = failed (tracker w')
    /\ rep_tests report = results (tracker w')
    /\ (success = true
        <-> Forall (fun r => res_passed r = true) (results (tracker w'))).
Proof.
  intros Hup Hok.
  destruct (main_up_outcome w Hup)
    as (w1 & out & details & Hmain & Hadv & Hsent & _).
  pose proof (advances_tracker_ok _ _ _ _ Hadv Hok) as Hok1.
  destruct Hadv as ((rs & Hlen & Hrs & _) & (qs & Hk & Hqs) & _).
  eexists _, _, _. split; [exact Hmain|]. simpl.
  split; [rewrite Hqs, length_app; lia|]. split; [exact Hsent|].
  split; [rewrite Hrs, length_app; lia|].
  split; [reflexivity|]. repeat split; auto.
  - rewrite bool_decide_eq_true. now apply tracker_ok_verdict.
  - rewrite bool_decide_eq_true. now apply tracker_ok_verdict.
Qed.

(** *** The command line *)

#[local] Abbreviation tests_of_type_ :=
  (tests_of_type Server http now environ preview_url config_import_error
                 import_module).

Lemma tests_of_type_runs test_type tests :
  tests_of_type_ test_type = Some tests -> exists n k, runs n k tests.
Proof.
  unfold tests_of_type. repeat case_decide; intros [= <-]; eexists _, _.
  - apply runs_test_cardano_agent.
  - apply runs_test_legal_agent.
  - apply runs_test_authentication.
  - apply runs_test_environment.
  - apply runs_test_python_tools.
  - apply runs_test_vector_databases.
  - eapply runs_bind;
      [apply runs_test_environment
      |intros _; apply runs_test_python_tools|reflexivity|reflexivity].
Qed.

Lemma tests_of_type_unknown test_type :
  tests_of_type_ test_type = None <-> test_type ∉ known_test_types.
Proof.
  unfold tests_of_type, known_test_types. rewrite !not_elem_of_cons.
  repeat case_decide;
    (split; [try discriminate; intros _|intros Hnot]);
    try reflexivity; try tauto.
  repeat split; try assumption. apply not_elem_of_nil.
Qed.

Lemma run_script_type_outcome test_type (w : World Server) :
  exists w' out n k,
    advances n k w w'
    /\ (exists later, sent w' = sent w ++ health_request :: later)
    /\ run_script_ (Some test_type) w
       = (mkWorld (tracker w') out (clock w') (server w') (sent w')
                  (results_file w'),
          Return (if (negb (server_up http w)
                      && negb (bool_decide (test_type ∈ ["env"; "tools"])))
                     || bool_decide (test_type ∉ known_test_types)
                  then 1 else 0)).
Proof.
  unfold run_script.
  destruct (check_server_outcome w)
    as (w1 & details & Hcheck & Hadv & Hsent & _).
  erewrite bind_eq by exact Hcheck.
  destruct (negb (server_up http w)
            && negb (bool_decide (test_type ∈ ["env"; "tools"]))) eqn:Hstop.
  - script_step. simpl. eexists w1, _, _, _. split; [exact Hadv|].
    split; [now exists []|]. reflexivity.
  - destruct (tests_of_type_ test_type) as [tests|] eqn:Htests.
    + assert (bool_decide (test_type ∉ known_test_types) = false) as ->.
      { apply bool_decide_eq_false_2. rewrite <- tests_of_type_unknown.
        congruence. }
      destruct (tests_of_type_runs _ _ Htests) as (n & k & Hruns).
      run_test Hruns w2 Hadv2.
      destruct (print_summary_effect w2) as (out & Hsummary).
      erewrite bind_eq by exact Hsummary. simpl.
      eexists w2, _, _, _. split; [eapply advances_trans; eauto|].
      split; [|reflexivity].
      destruct Hadv2 as (_ & (qs & _ & ->) & _). exists qs.
      now rewrite Hsent, <- app_assoc.
    + assert (bool_decide (test_type ∉ known_test_types) = true) as ->.
      { apply bool_decide_eq_true_2. now rewrite <- tests_of_type_unknown. }
      do 2 script_step. simpl. eexists w1, _, _, _. split; [exact Hadv|].
      split; [now exists []|]. reflexivity.
Qed.

(** X12. Run with a test type, the script always sends the health check
    first.  It ends with status 1 when the server is down and the type is
    neither "env" nor "tools", or when the type is unknown, and with
    status 0 otherwise, whatever the outcome of the tests it ran; in this
    mode the results file is never written. *)
Theorem command_line_exit_status test_type (w : World Server) :
  exists w' code,
    run_script_ (Some test_type) w = (w', Return code)
    /\ (code = 1
        <-> (server_up http w = false /\ test_type ∉ ["env"; "tools"])
           \/ test_type ∉ known_test_types)
    /\ (code = 0 \/ code = 1)
    /\ (exists later, sent w' = sent w ++ health_request :: later)
    /\ results_file w' = results_file w.
Proof.
  destruct (run_script_type_outcome test_type w)
    as (w1 & out & n & k & Hadv & Hsent & Hrun).
  eexists _, _. split; [exact Hrun|]. simpl.
  split; [|split; [|split; [exact Hsent|apply Hadv]]].
  - destruct (server_up http w); simpl;
      repeat case_bool_decide; simpl; split; try tauto; try discriminate;
      intros [[? ?]|?]; try discriminate; try contradiction; auto.
  - destruct (_ || _); auto.
Qed.

(** X13. Whatever the mode, the script returns an exit status without
    raising, and leaves the counters of the tracker in agreement with its
    list of results: the total is the number of results, and the passed
    and failed counters are the numbers of passes and of failures. *)
Theorem script_keeps_tracker_consistent test_type (w : World Server) :
  tracker_ok (tracker w) ->
  exists w' code,
    run_script_ test_type w = (w', Return code)
    /\ tracker_ok (tracker w')
    /\ exists later, results (tracker w') = results (tracker w) ++ later.
Proof.
  intros Hok. destruct test_type as [test_type|].
  - destruct (run_script_type_outcome test_type w)
      as (w1 & out & n & k & Hadv & _ & Hrun).
    eexists _, _. split; [exact Hrun|]. simpl.
    split; [eapply advances_tracker_ok; eauto|].
    destruct Hadv as ((rs & _ & Hrs & _) & _). eauto.
  - unfold run_script. destruct (server_up http w) eqn:Hup.
    + destruct (main_up_outcome w Hup)
        as (w1 & out & details & Hmain & Hadv & _).
      erewrite bind_eq by exact Hmain. eexists _, _.
      split; [reflexivity|]. simpl.
      split; [eapply advances_tracker_ok; eauto|].
      destruct Hadv as ((rs & _ & Hrs & _) & _). eauto.
    + destruct (main_down_outcome w Hup)
        as (w1 & out & details & Hmain & Hadv & _).
      erewrite bind_eq by exact Hmain. eexists _, _.
      split; [reflexivity|]. simpl.
      split; [eapply advances_tracker_ok; eauto|].
      destruct Hadv as ((rs & _ & Hrs & _) & _). eauto.
Qed.

(** *** The authentication probes *)

Lemma auth_probe_effect headers test_data expected_status test_name
      (w : World Server) server' answer :
  http (server w)
       (mkRequest POST (API_BASE +:+ "/query/") headers (Some test_data) 10)
  = (server', answer) ->
  exists out details,
    auth_probe Server http now headers test_data expected_status test_name w
    = (mkWorld
         (mkTracker
            (if bool_decide (answer = inr expected_status)
             then S (passed (tracker w)) else passed (tracker w))
            (if bool_decide (answer = inr expected_status)
             then failed (tracker w) else S (failed (tracker w)))
            (S (total (tracker w)))
            (results (tracker w)
               ++ [mkResult test_name
                            (bool_decide (answer = inr expected_status))
                            details (now (clock w))]))
         out (S (clock w)) server'
         (sent w
            ++ [mkRequest POST (API_BASE +:+ "/query/") headers
                          (Some test_data) 10])
         (results_file w), Return ()).
Proof.
  intros Hhttp. unfold auth_probe. script_step.
  destruct answer as [e|status_code].
  - rewrite add_result_effect. cbn [tracker stdout clock server sent
                                            results_file].
    eexists _, _. reflexivity.
  - destruct (decide (status_code = expected_status)) as [->|Hne].
    + rewrite add_result_effect, bool_decide_eq_true_2 by reflexivity.
      eexists _, _. reflexivity.
    + rewrite add_result_effect, bool_decide_eq_false_2 by congruence.
      eexists _, _. reflexivity.
Qed.

(** X14. [test_authentication] sends three requests to the query endpoint,
    in this order: one without any header, one with the token
    "wrongtoken", one with the secret token; the secret token goes with
    the last only.  It records one result for each: the first two pass
    exactly when the answer is status 401, the third exactly when it is
    status 201, and a [RequestException] counts as a failure. *)
Theorem authentication_probes
        (w : World Server) server1 answer1 server2 answer2 server3 answer3 :
  http (server w) no_token_request = (server1, answer1) ->
  http server1 wrong_token_request = (server2, answer2) ->
  http server2 valid_token_request = (server3, answer3) ->
  exists w' recorded,
    test_authentication_ w = (w', Return ())
    /\ sent w'
       = sent w
           ++ [no_token_request; wrong_token_request; valid_token_request]
    /\ server w' = server3
    /\ results (tracker w') = results (tracker w) ++ recorded
    /\ verdict_of <$> recorded
       = [("Authentication - No Token", bool_decide (answer1 = inr 401));
          ("Authentication - Wrong Token", bool_decide (answer2 = inr 401));
          ("Authentication - Valid Token", bool_decide (answer3 = inr 201))]
    /\ req_headers no_token_request !! "Secret-token" = None
    /\ req_headers wrong_token_request !! "Secret-token" = Some "wrongtoken"
    /\ req_headers valid_token_request !! "Secret-token" = Some SECRET_TOKEN.
Proof.
  intros H1 H2 H3. unfold test_authentication. script_step.
  fold auth_test_data.
  match goal with
  | |- context [mbind ?f (auth_probe _ _ _ ∅ _ _ _) ?w0] =>
      destruct (auth_probe_effect ∅ auth_test_data 401
                  "Authentication - No Token" w0 _ _ H1) as (o1 & d1 & E1);
      rewrite (bind_eq _ f _ _ _ E1)
  end.
  match goal with
  | |- context [mbind ?f (auth_probe _ _ _ ?h _ _ _) ?w0] =>
      destruct (auth_probe_effect h auth_test_data 401
                  "Authentication - Wrong Token" w0 _ _ H2)
        as (o2 & d2 & E2);
      rewrite (bind_eq _ f _ _ _ E2)
  end.
  match goal with
  | |- context [auth_probe _ _ _ ?h _ _ _ ?w0] =>
      destruct (auth_probe_effect h auth_test_data 201
                  "Authentication - Valid Token" w0 _ _ H3)
        as (o3 & d3 & E3);
      rewrite E3
  end.
  eexists _, _. split; [reflexivity|].
  cbn [tracker stdout clock server sent results_file results].
  split; [now rewrite <- !app_assoc|]. split; [reflexivity|].
  split; [rewrite <- !app_assoc; reflexivity|].
  split; [reflexivity|].
  split; [apply lookup_empty|].
  split.
  - unfold wrong_token_request. simpl.
    now rewrite lookup_insert_ne, lookup_singleton_eq.
  - unfold valid_token_request, get_auth_headers. simpl.
    now rewrite lookup_insert_ne, lookup_singleton_eq.
Qed.

(** *** The environment test *)

(** X15. When the configuration module imports, [test_environment] sends
    nothing and records two results: the OpenAI key passes exactly when
    the environment holds [OPENAI_API_KEY] with a value that starts with
    "sk-", the Blockfrost project passes exactly when it holds
    [BLOCKFROST_PROJECT_ID] with a non-empty value. *)
Theorem environment_test_reads_configuration (w : World Server) :
  config_import_error = None ->
  exists w' recorded,
    test_environment_ w = (w', Return ())
    /\ sent w' = sent w
    /\ results (tracker w') = results (tracker w) ++ recorded
    /\ verdict_of <$> recorded
       = [("OpenAI API Key Configuration",
           match environ !! "OPENAI_API_KEY" with
           | Some key => String.prefix "sk-" key
           | None => false
           end);
          ("Blockfrost Project ID Configuration",
           match environ !! "BLOCKFROST_PROJECT_ID" with
           | Some project_id => negb (bool_decide (project_id = ""))
           | None => false
           end)].
Proof.
  intros Himport. unfold test_environment. rewrite Himport. script_step.
  unfold Config.load, Config.getenv.
  cbn [Config.OPENAI_API_KEY Config.BLOCKFROST_PROJECT_ID].
  assert (forall key,
             bool_decide (key <> "") && String.prefix "sk-" key
             = String.prefix "sk-" key) as Hkey.
  { intros [|c key]; [reflexivity|].
    now rewrite bool_decide_eq_true_2 by discriminate. }
  destruct (environ !! "OPENAI_API_KEY") as [key|];
    [rewrite Hkey; destruct (String.prefix "sk-" key)|];
    script_step;
    (destruct (environ !! "BLOCKFROST_PROJECT_ID") as [[|c project_id]|];
     rewrite add_result_effect;
     cbn [tracker stdout clock server sent results_file results];
     eexists _, _; (split; [reflexivity|]);
     cbn [tracker stdout clock server sent results_file results];
     (split; [reflexivity|]);
     (split; [rewrite <- app_assoc; reflexivity|]); reflexivity).
Qed.

End ScriptFacts.
(** ** The scripted server, run through the theorems *)

Import TestScenario.

Lemma test_api_endpoint_records_one_result_witness :
  ("POST" = "GET" \/ "POST" = "POST")
  /\ exists w' ok,
      test_api_endpoint nat answering ticking "/query/" "POST" None 201
                        "Cardano Agent - Knowledge Query" start
      = (w', Return ok)
      /\ ok = false
      /\ total (tracker w') = 1.
Proof.
  assert ("POST" = "GET" \/ "POST" = "POST") as Hmethod
      by (right; reflexivity).
  split; [exact Hmethod|].
  destruct (test_api_endpoint_records_one_result nat answering ticking
              "/query/" "POST" None 201 "Cardano Agent - Knowledge Query"
              start Hmethod)
    as (w' & ok & request & answer & details & Hrun & _ & _ & _ & _
        & Hhttp & Hok & _ & _ & Htotal).
  exists w', ok. split; [exact Hrun|]. split; [|exact Htotal].
  rewrite Hok. injection Hhttp as _ <-. reflexivity.
Defined.

Lemma test_api_endpoint_other_method_raises_witness :
  "PUT" <> "GET" /\ "PUT" <> "POST"
  /\ test_api_endpoint nat answering ticking "/query/" "PUT" None 200
                       "Update" start
     = (start, Raise (UnboundLocalError "response")).
Proof.
  assert ("PUT" <> "GET") as Hget by discriminate.
  assert ("PUT" <> "POST") as Hpost by discriminate.
  split; [exact Hget|]. split; [exact Hpost|].
  exact (test_api_endpoint_other_method_raises nat answering ticking
           "/query/" "PUT" None 200 "Update" start Hget Hpost).
Defined.

Lemma print_summary_reports_all_passed_witness :
  tracker_ok (tracker after_checks)
  /\ verdict_of <$> results (tracker after_checks)
     = [("Server Health Check", true);
        ("Authentication - No Token", false);
        ("Authentication - Wrong Token", false);
        ("Authentication - Valid Token", false)]
  /\ exists w', print_summary nat after_checks = (w', Return false).
Proof.
  assert (tracker_ok (tracker after_checks)) as Hok
      by (repeat split; vm_compute; reflexivity).
  split; [exact Hok|]. split; [vm_compute; reflexivity|].
  destruct (print_summary_reports_all_passed nat after_checks Hok)
    as (w' & verdict & Hrun & Hverdict & _).
  exists w'. rewrite Hrun. destruct verdict; [|reflexivity].
  apply proj1 in Hverdict. specialize (Hverdict eq_refl).
  vm_compute in Hverdict.
  inversion Hverdict as [|first_result later_results _ Hrest].
  inversion Hrest as [|second_result last_results Hfailed _].
  discriminate Hfailed.
Defined.

Lemma main_stops_when_server_is_down_witness :
  server_up refusing start = false
  /\ exists w',
      main nat refusing ticking environment preview None importing start
      = (w', Return false)
      /\ sent w' = [health_request]
      /\ results_file w' = None.
Proof.
  assert (server_up refusing start = false) as Hdown by reflexivity.
  split; [exact Hdown|].
  destruct (main_stops_when_server_is_down nat refusing ticking environment
              preview None importing start Hdown)
    as (w' & details & Hmain & Hsent & _ & _ & _ & Hfile).
  exists w'. split; [exact Hmain|]. split; [exact Hsent|exact Hfile].
Defined.

Lemma main_runs_all_tests_and_saves_witness :
  server_up answering start = true
  /\ tracker_ok (tracker start)
  /\ exists w' success report,
      main nat answering ticking environment preview None importing start
      = (w', Return success)
      /\ length (sent w') = 15
      /\ length (results (tracker w')) = 22
      /\ results_file w' = Some report
      /\ rep_tests report = results (tracker w').
Proof.
  assert (server_up answering start = true) as Hup by reflexivity.
  assert (tracker_ok (tracker start)) as Hok by (repeat split).
  split; [exact Hup|]. split; [exact Hok|].
  destruct (main_runs_all_tests_and_saves nat answering ticking environment
              preview None importing start Hup Hok)
    as (w' & success & report & Hmain & Hsent & _ & Hresults & Hfile & _
        & _ & _ & Htests & _).
  exists w', success, report. split; [exact Hmain|].
  split; [exact Hsent|]. split; [exact Hresults|].
  split; [exact Hfile|exact Htests].
Defined.

Lemma command_line_exit_status_witness :
  exists w',
    run_script nat answering ticking environment preview None importing
               (Some "auth") start = (w', Return 0).
Proof.
  destruct (command_line_exit_status nat answering ticking environment
              preview None importing "auth" start)
    as (w' & code & Hrun & Hcode & [H0|H1] & _).
  - exists w'. now rewrite Hrun, H0.
  - exfalso. apply Hcode in H1 as [[Hdown _]|Hunknown].
    + discriminate Hdown.
    + apply Hunknown. unfold known_test_types. rewrite !elem_of_cons.
      repeat (first [left; reflexivity | right]).
Defined.

Lemma script_keeps_tracker_consistent_witness :
  tracker_ok (tracker start)
  /\ exists w' code,
      run_script nat answering ticking environment preview None importing
                 None start = (w', Return code)
      /\ tracker_ok (tracker w').
Proof.
  assert (tracker_ok (tracker start)) as Hok by (repeat split).
  split; [exact Hok|].
  destruct (script_keeps_tracker_consistent nat answering ticking environment
              preview None importing None start Hok)
    as (w' & code & Hrun & Hok' & _).
  exists w', code. split; [exact Hrun|exact Hok'].
Defined.

Lemma authentication_probes_witness :
  answering (server start) no_token_request = (1, inr 200)
  /\ answering 1 wrong_token_request = (2, inr 200)
  /\ answering 2 valid_token_request = (3, inr 200)
  /\ exists w' recorded,
      test_authentication nat answering ticking start = (w', Return ())
      /\ results (tracker w') = recorded
      /\ verdict_of <$> recorded
         = [("Authentication - No Token", false);
            ("Authentication - Wrong Token", false);
            ("Authentication - Valid Token", false)].
Proof.
  split; [reflexivity|]. split; [reflexivity|]. split; [reflexivity|].
  destruct (authentication_probes nat answering ticking start
              1 (inr 200) 2 (inr 200) 3 (inr 200) eq_refl eq_refl eq_refl)
    as (w' & recorded & Hrun & _ & _ & Hresults & Hverdicts & _).
  exists w', recorded. split; [exact Hrun|]. split; [exact Hresults|].
  exact Hverdicts.
Defined.

Lemma environment_test_reads_configuration_witness :
  (None : option string) = None
  /\ exists w' recorded,
      test_environment nat ticking environment preview None start
      = (w', Return ())
      /\ verdict_of <$> recorded
         = [("OpenAI API Key Configuration", true);
            ("Blockfrost Project ID Configuration", false)]
      /\ results (tracker w') = recorded.
Proof.
  split; [reflexivity|].
  destruct (environment_test_reads_configuration nat ticking environment
              preview None start eq_refl)
    as (w' & recorded & Hrun & _ & Hresults & Hverdicts).
  exists w', recorded. split; [exact Hrun|]. split; [|exact Hresults].
  rewrite Hverdicts. reflexivity.
Defined.
